(** * Expense tracker: statement parsers and categoriser

    A shallow embedding of [app/parsers.py] and [app/categoriser.py].

    Conventions of the embedding.
    - A Python [str] is a Rocq [string]; characters outside ASCII appear as
      their UTF-8 code units and are never case-mapped ([lower] acts on
      [A-Z] only) nor counted as white space.
    - A pandas cell is a [cell]: text, a number, or the missing marker NaN.
      Numbers are exact finite decimals ([decimal]); binary rounding, the
      infinities and exponent notation are outside the model.
    - Exceptions are values of [exn]; a computation that may raise returns a
      [result].  Mutable objects ([df_raw], the override store, the backing
      file) are threaded explicitly. *)

From Stdlib Require Import ZArith List Bool Ascii String Lia.
From stdpp Require Import base option gmap strings list fin_maps.
Import ListNotations.
Open Scope string_scope.
Open Scope list_scope.

(* ===================================================================== *)
(** ** Exceptions *)
(* ===================================================================== *)

Inductive exn : Type :=
| OSError
| JSONDecodeError
| UnicodeDecodeError
| ValueError
| EmptyDataError
| AttributeError
| IndexError
| ParserError
| KeyError (key : string).

Inductive result (A : Type) : Type :=
| Ok (a : A)
| Raise (e : exn).
Arguments Ok {A} a.
Arguments Raise {A} e.

#[global] Instance result_ret : MRet result := fun A a => Ok a.

#[global] Instance result_bind : MBind result := fun A B k r =>
  match r with
  | Ok a => k a
  | Raise e => Raise e
  end.

(* ===================================================================== *)
(** ** Text primitives ([str] methods used by the program) *)
(* ===================================================================== *)

Module Text.

Definition code (c : ascii) : nat := nat_of_ascii c.

Definition between (lo hi : nat) (c : ascii) : bool :=
  Nat.leb lo (code c) && Nat.leb (code c) hi.

Definition is_digit (c : ascii) : bool := between 48 57 c.

(** [str.isspace] on the ASCII range: TAB, LF, VT, FF, CR, FS, GS, RS, US
    and the space. *)
Definition is_space (c : ascii) : bool :=
  between 9 13 c || between 28 32 c.

Definition lower_char (c : ascii) : ascii :=
  if between 65 90 c then ascii_of_nat (code c + 32) else c.

Definition upper_char (c : ascii) : ascii :=
  if between 97 122 c then ascii_of_nat (code c - 32) else c.

(** [s.lower()] and [s.upper()] *)
Fixpoint lower (s : string) : string :=
  match s with
  | EmptyString => EmptyString
  | String c s' => String (lower_char c) (lower s')
  end.

Fixpoint upper (s : string) : string :=
  match s with
  | EmptyString => EmptyString
  | String c s' => String (upper_char c) (upper s')
  end.

Fixpoint lstrip (s : string) : string :=
  match s with
  | EmptyString => EmptyString
  | String c s' => if is_space c then lstrip s' else s
  end.

Fixpoint rstrip (s : string) : string :=
  match s with
  | EmptyString => EmptyString
  | String c s' =>
      match rstrip s' with
      | EmptyString => if is_space c then EmptyString else String c EmptyString
      | r => String c r
      end
  end.

(** [s.strip()] *)
Definition strip (s : string) : string := rstrip (lstrip s).

(** [sub in s] *)
Fixpoint contains (sub s : string) : bool :=
  String.prefix sub s ||
  match s with
  | EmptyString => false
  | String _ s' => contains sub s'
  end.

(** [s.replace(old, "")] for a non-empty [old]: occurrences are removed
    left to right, without overlap.  [old] is matched with
    [String.prefix] and skipped with [drop_chars]. *)
Fixpoint drop_chars (n : nat) (s : string) : string :=
  match n, s with
  | S n', String _ s' => drop_chars n' s'
  | _, _ => s
  end.

Fixpoint remove_fuel (fuel : nat) (old s : string) : string :=
  match fuel with
  | O => s
  | S fuel' =>
      match s with
      | EmptyString => EmptyString
      | String c s' =>
          if String.prefix old s
          then remove_fuel fuel' old (drop_chars (String.length old) s)
          else String c (remove_fuel fuel' old s')
      end
  end.

Definition remove (old s : string) : string :=
  match old with
  | EmptyString => s
  | _ => remove_fuel (String.length s) old s
  end.

(** [sep.join(parts)] *)
Fixpoint join (sep : string) (parts : list string) : string :=
  match parts with
  | [] => EmptyString
  | [p] => p
  | p :: rest => p +:+ sep +:+ join sep rest
  end.

(** [s.split(",")]: always at least one field. *)
Fixpoint split_on (sep : ascii) (s : string) : list string :=
  match s with
  | EmptyString => [EmptyString]
  | String c s' =>
      if Ascii.eqb c sep then EmptyString :: split_on sep s'
      else match split_on sep s' with
           | [] => [String c EmptyString]
           | f :: fs => String c f :: fs
           end
  end.

Definition is_empty (s : string) : bool :=
  match s with EmptyString => true | _ => false end.

(** Line boundaries of [str.splitlines] on the ASCII range: LF, VT, FF,
    CR, FS, GS, RS; CR LF counts once. *)
Definition is_linebreak (c : ascii) : bool :=
  between 10 13 c || between 28 30 c.

Fixpoint split_lines (s : string) : list string :=
  match s with
  | EmptyString => [EmptyString]
  | String c s' =>
      if is_linebreak c then
        EmptyString ::
        match s' with
        | String c' s'' =>
            if Nat.eqb (code c) 13 && Nat.eqb (code c') 10
            then split_lines s'' else split_lines s'
        | EmptyString => split_lines s'
        end
      else match split_lines s' with
           | [] => [String c EmptyString]
           | l :: ls => String c l :: ls
           end
  end.

Fixpoint drop_last_empty (ls : list string) : list string :=
  match ls with
  | [] => []
  | [l] => if is_empty l then [] else [l]
  | l :: ls' => l :: drop_last_empty ls'
  end.

(** [s.splitlines()] *)
Definition splitlines (s : string) : list string := drop_last_empty (split_lines s).

(** [s.endswith(suffix)] *)
Definition endswith (suffix s : string) : bool :=
  String.eqb (drop_chars (String.length s - String.length suffix) s) suffix.

Definition LF : string := String (ascii_of_nat 10) EmptyString.

End Text.

(* ===================================================================== *)
(** ** Numbers *)
(* ===================================================================== *)

(** A finite decimal [unscaled * 10^(-scale)], kept without trailing zeros
    so that equal values are equal terms. *)
Record decimal : Type := Dec { unscaled : Z; scale : nat }.

Module Num.

Fixpoint trim (m : Z) (k : nat) : decimal :=
  match k with
  | O => Dec m 0
  | S k' => if (m mod 10 =? 0)%Z then trim (m / 10) k' else Dec m k
  end.

Definition zero : decimal := Dec 0 0.

Definition abs (d : decimal) : decimal := Dec (Z.abs (unscaled d)) (scale d).

(** [d > 0] and [d < 0] *)
Definition gt0 (d : decimal) : bool := (0 <? unscaled d)%Z.
Definition lt0 (d : decimal) : bool := (unscaled d <? 0)%Z.

Definition digit_val (c : ascii) : Z := Z.of_nat (Text.code c - 48).

(** Value of a run of digits, [None] when another character occurs. *)
Fixpoint digits (acc : Z) (s : string) : option Z :=
  match s with
  | EmptyString => Some acc
  | String c s' =>
      if Text.is_digit c then digits (acc * 10 + digit_val c)%Z s' else None
  end.

(** White space skipped around a number by the numeric reader. *)
Definition is_blank (c : ascii) : bool :=
  Text.between 9 13 c || Nat.eqb (Text.code c) 32.

Fixpoint lskip (s : string) : string :=
  match s with
  | EmptyString => EmptyString
  | String c s' => if is_blank c then lskip s' else s
  end.

Fixpoint rskip (s : string) : string :=
  match s with
  | EmptyString => EmptyString
  | String c s' =>
      match rskip s' with
      | EmptyString => if is_blank c then EmptyString else String c EmptyString
      | r => String c r
      end
  end.

(** Unsigned body: [ddd], [ddd.ddd], [ddd.] or [.ddd], with a digit. *)
Definition unsigned_body (s : string) : option decimal :=
  match Text.split_on "."%char s with
  | [i] =>
      if Text.is_empty i then None
      else m ← digits 0 i; Some (Dec m 0)
  | [i; f] =>
      if Text.is_empty i && Text.is_empty f then None
      else m ← digits 0 (i +:+ f); Some (trim m (String.length f))
  | _ => None
  end.

(** Text to number: optional blanks, an optional sign, an unsigned body.
    [None] is the failed conversion. *)
Definition of_string (s : string) : option decimal :=
  match rskip (lskip s) with
  | String "-"%char body =>
      d ← unsigned_body body; Some (Dec (- unscaled d) (scale d))
  | String "+"%char body => unsigned_body body
  | body => unsigned_body body
  end.

Fixpoint nat_digits (fuel : nat) (n : nat) (acc : string) : string :=
  match fuel with
  | O => acc
  | S fuel' =>
      let acc' := String (ascii_of_nat (48 + n mod 10)) acc in
      if Nat.ltb n 10 then acc' else nat_digits fuel' (n / 10) acc'
  end.

Definition string_of_nat (n : nat) : string := nat_digits (S n) n EmptyString.

Fixpoint zeros (n : nat) : string :=
  match n with
  | O => EmptyString
  | S n' => String "0"%char (zeros n')
  end.

Fixpoint take_chars (n : nat) (s : string) : string :=
  match n, s with
  | S n', String c s' => String c (take_chars n' s')
  | _, _ => EmptyString
  end.

(** [str(x)] of a float: sign, integer digits, a point and at least one
    fractional digit. *)
Definition to_string (d : decimal) : string :=
  let ds := string_of_nat (Z.to_nat (Z.abs (unscaled d))) in
  let ds := zeros (S (scale d) - String.length ds) +:+ ds in
  let n := String.length ds - scale d in
  let frac := Text.drop_chars n ds in
  (if lt0 d then "-" else "") +:+ take_chars n ds +:+ "." +:+
  (if Text.is_empty frac then "0" else frac).

End Num.

(* ===================================================================== *)
(** ** categoriser.py *)
(* ===================================================================== *)

Record CategoryConfig : Type := {
  rules : list (string * list string);
  icons : list (string * string);
  uncategorised_label : string;
  uncategorised_icon : string;
  itemised_threshold : decimal
}.

(** The library calls [json.dumps(d, indent=2, ensure_ascii=False)] and
    [json.loads(text)], at the type [dict[str, str]] the store is annotated
    with.  The program uses them as a black box. *)
Class Json : Type := {
  json_dumps : gmap string string -> string;
  json_loads : string -> result (gmap string string)
}.

(** What [config/overrides.json] holds: text, or bytes that the default
    encoding cannot decode. *)
Inductive content : Type :=
| Text (s : string)
| Undecodable.

Record file : Type := { readable : bool; body : content }.

(** The backing storage: the file, if it exists, and whether its location
    accepts writes. *)
Record disk : Type := { overrides_json : option file; writable : bool }.

Module Path.

(** [path.exists()] *)
Definition exists_ (d : disk) : bool :=
  match overrides_json d with Some _ => true | None => false end.

(** [path.read_text()]: [OSError] when the file cannot be opened,
    [UnicodeDecodeError] when its bytes do not decode. *)
Definition read_text (d : disk) : result string :=
  match overrides_json d with
  | None => Raise OSError
  | Some f =>
      if readable f then
        match body f with
        | Text s => Ok s
        | Undecodable => Raise UnicodeDecodeError
        end
      else Raise OSError
  end.

(** [path.parent.mkdir(parents=True, exist_ok=True)] followed by
    [path.write_text(s)]: a new file is readable, an overwritten one keeps
    its permissions. *)
Definition write_text (s : string) (d : disk) : disk * result unit :=
  if writable d then
    let r := match overrides_json d with Some f => readable f | None => true end in
    ({| overrides_json := Some {| readable := r; body := Text s |};
        writable := true |}, Ok tt)
  else (d, Raise OSError).

(** Whether the file, where there is one, can be opened for reading. *)
Definition can_read_back (d : disk) : bool :=
  match overrides_json d with Some f => readable f | None => true end.

End Path.

Record OverrideStore : Type := { _data : gmap string string }.

Module OverrideStore.
Section WithJson.
Context {J : Json}.

(** The handler [except (json.JSONDecodeError, OSError)]. *)
Definition handled (e : exn) : bool :=
match e with
| JSONDecodeError | OSError => true
| _ => false
end.

Definition _load (d : disk) : result (gmap string string) :=
if Path.exists_ d then
  match text ← Path.read_text d; json_loads text with
  | Ok m => Ok m
  | Raise e => if handled e then Ok ∅ else Raise e
  end
else Ok ∅.

(** [OverrideStore(path)] *)
Definition init (d : disk) : result OverrideStore :=
m ← _load d; Ok {| _data := m |}.

Definition _save (self : OverrideStore) (d : disk) : disk * result unit :=
Path.write_text (json_dumps (_data self)) d.

Definition key (description : string) : string :=
Text.strip (Text.lower description).

Definition get (self : OverrideStore) (description : string) : option string :=
_data self !! key description.

(** The assignment happens before the save: the object is updated even
  when the write raises. *)
Definition set (self : OverrideStore) (description category : string) (d : disk)
: OverrideStore * disk * result unit :=
let self' := {| _data := <[key description := category]> (_data self) |} in
let '(d', r) := _save self' d in
(self', d', r).

Definition remove (self : OverrideStore) (description : string) (d : disk)
: OverrideStore * disk * result unit :=
let k := key description in
match _data self !! k with
| Some _ =>
    let self' := {| _data := delete k (_data self) |} in
    let '(d', r) := _save self' d in
    (self', d', r)
| None => (self, d, Ok tt)
end.

Definition all_overrides (self : OverrideStore) : gmap string string := _data self.

End WithJson.
End OverrideStore.

Record Categoriser : Type := { config : CategoryConfig; overrides : OverrideStore }.

Module Categoriser.

(** The inner loop [for keyword in keywords: if keyword in desc_lower]. *)
Definition any_keyword (keywords : list string) (desc_lower : string) : bool :=
  existsb (fun keyword => Text.contains keyword desc_lower) keywords.

(** The outer loop over [rules.items()], in the configured order. *)
Fixpoint scan (rs : list (string * list string)) (desc_lower : string) : option string :=
  match rs with
  | [] => None
  | (category, keywords) :: rs' =>
      if any_keyword keywords desc_lower then Some category else scan rs' desc_lower
  end.

Definition categorise (self : Categoriser) (description : string) : string :=
  match OverrideStore.get (overrides self) description with
  | Some override => override
  | None =>
      let desc_lower := Text.lower description in
      match scan (rules (config self)) desc_lower with
      | Some category => category
      | None => uncategorised_label (config self)
      end
  end.

Definition recategorise {J : Json} (self : Categoriser) (description new_category : string)
    (d : disk) : Categoriser * disk * result unit :=
  let '(st, d', r) := OverrideStore.set (overrides self) description new_category d in
  ({| config := config self; overrides := st |}, d', r).

Fixpoint assoc (k : string) (l : list (string * string)) : option string :=
  match l with
  | [] => None
  | (k', v) :: l' => if String.eqb k k' then Some v else assoc k l'
  end.

Definition get_icon (self : Categoriser) (category : string) : string :=
  if String.eqb category (uncategorised_label (config self))
  then uncategorised_icon (config self)
  else default "" (assoc category (icons (config self))).

Definition all_categories (self : Categoriser) : list string :=
  map fst (rules (config self)) ++ [uncategorised_label (config self)].

End Categoriser.

(* ===================================================================== *)
(** ** A concrete codec for the overrides document *)
(* ===================================================================== *)

(** The text [json.dumps(d, indent=2, ensure_ascii=False)] writes for a
    [dict[str, str]], and a reader for documents of that shape (a JSON
    object whose values are strings).  It instantiates [Json] where a
    concrete codec is needed; texts of any other shape are reported as a
    decode error, which is not a statement about Python's reader. *)
Module PyJson.

Definition hex_digit (n : nat) : ascii :=
  if Nat.ltb n 10 then ascii_of_nat (48 + n) else ascii_of_nat (87 + n).

(** One character inside a JSON string literal. *)
Definition escape_char (c : ascii) : string :=
  match Text.code c with
  | 34 => "\" +:+ String c ""
  | 92 => "\\"
  | 10 => "\n"
  | 13 => "\r"
  | 9 => "\t"
  | 8 => "\b"
  | 12 => "\f"
  | n => if Nat.ltb n 32
         then "\u00" +:+ String (hex_digit (n / 16)) (String (hex_digit (n mod 16)) "")
         else String c ""
  end.

Fixpoint escape (s : string) : string :=
  match s with
  | EmptyString => EmptyString
  | String c s' => escape_char c +:+ escape s'
  end.

Definition quote : string := String (ascii_of_nat 34) "".
Definition newline : string := String (ascii_of_nat 10) "".

Definition dumps_str (s : string) : string := quote +:+ escape s +:+ quote.

Definition dumps_item (kv : string * string) : string :=
  "  " +:+ dumps_str (fst kv) +:+ ": " +:+ dumps_str (snd kv).

Definition dumps_items (items : list (string * string)) : string :=
  match items with
  | [] => "{}"
  | _ => "{" +:+ newline +:+ Text.join ("," +:+ newline) (map dumps_item items)
         +:+ newline +:+ "}"
  end.

Definition dumps (m : gmap string string) : string := dumps_items (map_to_list m).

Definition hex_val (c : ascii) : option nat :=
  let n := Text.code c in
  if Text.between 48 57 c then Some (n - 48)
  else if Text.between 97 102 c then Some (n - 87)
  else if Text.between 65 70 c then Some (n - 55)
  else None.

Definition unescape (e : ascii) : option ascii :=
  match Text.code e with
  | 34 => Some e
  | 92 => Some e
  | 47 => Some e
  | 110 => Some (ascii_of_nat 10)
  | 114 => Some (ascii_of_nat 13)
  | 116 => Some (ascii_of_nat 9)
  | 98 => Some (ascii_of_nat 8)
  | 102 => Some (ascii_of_nat 12)
  | _ => None
  end.

(** The body of a string literal, after its opening quote: the decoded
    text and what follows the closing quote. *)
Fixpoint read_chars (s : string) : option (string * string) :=
  match s with
  | EmptyString => None
  | String c s' =>
      if Nat.eqb (Text.code c) 34 then Some (EmptyString, s')
      else if Nat.eqb (Text.code c) 92 then
        match s' with
        | String e s'' =>
            match unescape e with
            | Some ch =>
                match read_chars s'' with
                | Some (r, rest) => Some (String ch r, rest)
                | None => None
                end
            | None =>
                match s'' with
                | String h1 (String h2 (String h3 (String h4 s3))) =>
                    if Nat.eqb (Text.code e) 117 then
                      match hex_val h1, hex_val h2, hex_val h3, hex_val h4 with
                      | Some 0, Some 0, Some a, Some b =>
                          if Nat.ltb (a * 16 + b) 128 then
                            match read_chars s3 with
                            | Some (r, rest) =>
                                Some (String (ascii_of_nat (a * 16 + b)) r, rest)
                            | None => None
                            end
                          else None
                      | _, _, _, _ => None
                      end
                    else None
                | _ => None
                end
            end
        | EmptyString => None
        end
      else if Nat.ltb (Text.code c) 32 then None
      else
        match read_chars s' with
        | Some (r, rest) => Some (String c r, rest)
        | None => None
        end
  end.

(** JSON white space: space, TAB, LF, CR. *)
Definition is_ws (c : ascii) : bool :=
  match Text.code c with
  | 32 | 9 | 10 | 13 => true
  | _ => false
  end.

Fixpoint skip_ws (s : string) : string :=
  match s with
  | EmptyString => EmptyString
  | String c s' => if is_ws c then skip_ws s' else s
  end.

Definition read_str (s : string) : option (string * string) :=
  match s with
  | String c s' => if Nat.eqb (Text.code c) 34 then read_chars s' else None
  | EmptyString => None
  end.

Definition expect (c : ascii) (s : string) : option string :=
  match s with
  | String c' s' => if Ascii.eqb c c' then Some s' else None
  | EmptyString => None
  end.

(** Members after the opening brace: [key : value] separated by commas,
    closed by a brace. *)
Fixpoint read_members (fuel : nat) (s : string) : option (list (string * string) * string) :=
  match fuel with
  | O => None
  | S fuel' =>
      '(k, s1) ← read_str (skip_ws s);
      s2 ← expect ":"%char (skip_ws s1);
      '(v, s3) ← read_str (skip_ws s2);
      match skip_ws s3 with
      | String c s4 =>
          if Ascii.eqb c ","%char then
            '(kvs, rest) ← read_members fuel' s4; Some ((k, v) :: kvs, rest)
          else if Ascii.eqb c "}"%char then Some ([(k, v)], s4)
          else None
      | EmptyString => None
      end
  end.

Definition read_object (s : string) : option (list (string * string)) :=
  s1 ← expect "{"%char (skip_ws s);
  match skip_ws s1 with
  | String c s2 =>
      if Ascii.eqb c "}"%char
      then (if Text.is_empty (skip_ws s2) then Some [] else None)
      else '(kvs, rest) ← read_members (String.length s1) s1;
           if Text.is_empty (skip_ws rest) then Some kvs else None
  | EmptyString => None
  end.

(** Later members win, as in a Python [dict] built from the pairs. *)
Definition of_pairs (kvs : list (string * string)) : gmap string string :=
  list_to_map (reverse kvs).

Definition loads (text : string) : result (gmap string string) :=
  match read_object text with
  | Some kvs => Ok (of_pairs kvs)
  | None => Raise JSONDecodeError
  end.

Definition codec : Json := {| json_dumps := dumps; json_loads := loads |}.

End PyJson.

(* ===================================================================== *)
(** ** parsers.py: cells, dates and frames *)
(* ===================================================================== *)

(** A cell of a pandas column: text, an [int64], a [float64], or NaN. *)
Inductive cell : Type :=
| CText (s : string)
| CInt (z : Z)
| CNum (d : decimal)
| CNaN.

Record calendar_date : Type := { year : nat; month : nat; day : nat }.

(** A raw frame as [read_csv] or [read_excel] returns it: the column labels
    and the rows, every row as long as the header.  Labels are taken to be
    distinct after normalisation; a label is looked up at its first
    occurrence. *)
Record frame : Type := { columns : list string; rows : list (list cell) }.

(** The frame a recognizer builds, with its three columns; [None] in the
    date column is NaT. *)
Record partial_row : Type := {
  date_ : option calendar_date;
  description_ : cell;
  amount_ : cell
}.

(** A row of the normalised table. *)
Record Transaction : Type := {
  date : calendar_date;
  description : cell;
  amount : decimal;
  source_file : string
}.

(** The library call [pd.to_datetime(series, dayfirst=True, format="mixed")],
    used as a black box: the dates, or the exception it raises on an
    element it cannot read. *)
Class DateInference : Type := {
  to_datetime_mixed : list cell -> result (list (option calendar_date))
}.

Module Frame.

Definition isna (c : cell) : bool :=
  match c with CNaN => true | _ => false end.

Definition is_text (c : cell) : bool :=
  match c with CText _ => true | _ => false end.

Fixpoint index_of (name : string) (cols : list string) : option nat :=
  match cols with
  | [] => None
  | c :: cols' =>
      if String.eqb c name then Some 0 else S <$> index_of name cols'
  end.

(** [name in cols] *)
Definition has (name : string) (cols : list string) : bool :=
  existsb (String.eqb name) cols.

(** [df[name]] *)
Definition col (name : string) (df : frame) : result (list cell) :=
  match index_of name (columns df) with
  | Some i => Ok (map (fun r => nth i r CNaN) (rows df))
  | None => Raise (KeyError name)
  end.

(** [df.columns = cols] *)
Definition set_columns (cols : list string) (df : frame) : frame :=
  {| columns := cols; rows := rows df |}.

(** [df.empty]: no rows or no columns. *)
Definition empty (df : frame) : bool :=
  match columns df, rows df with
  | _ :: _, _ :: _ => false
  | _, _ => true
  end.

(** [[c.lower().strip() for c in df_raw.columns]] *)
Definition lowered (df : frame) : list string :=
  map (fun c => Text.strip (Text.lower c)) (columns df).

(** [x.astype(str)] on one cell *)
Definition astype_str (c : cell) : string :=
  match c with
  | CText s => s
  | CInt z => (if (z <? 0)%Z then "-" else "") +:+ Num.string_of_nat (Z.to_nat (Z.abs z))
  | CNum d => Num.to_string d
  | CNaN => "nan"
  end.

(** [pd.to_numeric(x, errors="coerce")] on one cell; [None] is NaN. *)
Definition to_numeric (c : cell) : option decimal :=
  match c with
  | CText s => Num.of_string s
  | CInt z => Some (Dec z 0)
  | CNum d => Some d
  | CNaN => None
  end.

(** A numeric column cell as a [cell] again. *)
Definition of_numeric (o : option decimal) : cell :=
  match o with Some d => CNum d | None => CNaN end.

(** The accessor [.str] exists on object columns only. *)
Definition str_accessor (column : list cell) : result (list cell) :=
  if existsb is_text column then Ok column else Raise AttributeError.

End Frame.

(* ===================================================================== *)
(** ** parsers.py: [_to_date] *)
(* ===================================================================== *)

Module Strptime.

Inductive directive : Type :=
| Pd            (* %d *)
| Pm            (* %m *)
| PY            (* %Y *)
| Py            (* %y *)
| Pb            (* %b *)
| Blank         (* a space in the format: one or more white-space characters *)
| Lit (c : ascii).

Record fields : Type := { f_year : nat; f_month : nat; f_day : nat }.

Inductive slot : Type := Year | Month | Day | Nothing.

Definition put (sl : slot) (v : nat) (f : fields) : fields :=
  match sl with
  | Year => {| f_year := v; f_month := f_month f; f_day := f_day f |}
  | Month => {| f_year := f_year f; f_month := v; f_day := f_day f |}
  | Day => {| f_year := f_year f; f_month := f_month f; f_day := v |}
  | Nothing => f
  end.

Definition dv (c : ascii) : nat := Text.code c - 48.

Definition month_names : list string :=
  ["jan"; "feb"; "mar"; "apr"; "may"; "jun"; "jul"; "aug"; "sep"; "oct"; "nov"; "dec"].

Fixpoint month_index (n : nat) (names : list string) (w : string) : option nat :=
  match names with
  | [] => None
  | m :: names' => if String.eqb m w then Some n else month_index (S n) names' w
  end.

(** All ways of leaving at least one leading white-space character
    behind, longest first. *)
Fixpoint blanks (s : string) : list string :=
  match s with
  | String c s' => if Text.is_space c then blanks s' ++ [s'] else []
  | EmptyString => []
  end.

(** The alternatives of one directive at the head of [s], in the order
    the regular expression tries them: the value read and the rest.
      %d  3[0-1] | [1-2]\d | 0[1-9] | [1-9] | space [1-9]
      %m  1[0-2] | 0[1-9] | [1-9]
      %Y  four digits      %y  two digits
      %b  a month abbreviation, in any case *)
Definition alternatives (d : directive) (s : string) : list (slot * nat * string) :=
  match d with
  | Pd =>
      (match s with
       | String a (String b r) =>
           if Text.is_digit a && Text.is_digit b
              && Nat.leb 1 (10 * dv a + dv b) && Nat.leb (10 * dv a + dv b) 31
           then [(Day, 10 * dv a + dv b, r)] else []
       | _ => []
       end) ++
      (match s with
       | String a r => if Text.between 49 57 a then [(Day, dv a, r)] else []
       | _ => []
       end) ++
      (match s with
       | String a (String b r) =>
           if Nat.eqb (Text.code a) 32 && Text.between 49 57 b then [(Day, dv b, r)] else []
       | _ => []
       end)
  | Pm =>
      (match s with
       | String a (String b r) =>
           if Text.is_digit a && Text.is_digit b
              && Nat.leb 1 (10 * dv a + dv b) && Nat.leb (10 * dv a + dv b) 12
           then [(Month, 10 * dv a + dv b, r)] else []
       | _ => []
       end) ++
      (match s with
       | String a r => if Text.between 49 57 a then [(Month, dv a, r)] else []
       | _ => []
       end)
  | PY =>
      match s with
      | String a (String b (String c (String e r))) =>
          if Text.is_digit a && Text.is_digit b && Text.is_digit c && Text.is_digit e
          then [(Year, 1000 * dv a + 100 * dv b + 10 * dv c + dv e, r)] else []
      | _ => []
      end
  | Py =>
      match s with
      | String a (String b r) =>
          if Text.is_digit a && Text.is_digit b
          then let yy := 10 * dv a + dv b in
               [(Year, if Nat.ltb yy 69 then 2000 + yy else 1900 + yy, r)]
          else []
      | _ => []
      end
  | Pb =>
      match s with
      | String a (String b (String c r)) =>
          match month_index 1 month_names
                  (Text.lower (String a (String b (String c EmptyString)))) with
          | Some m => [(Month, m, r)]
          | None => []
          end
      | _ => []
      end
  | Blank => map (fun r => (Nothing, 0, r)) (blanks s)
  | Lit c =>
      match s with
      | String a r => if Ascii.eqb a c then [(Nothing, 0, r)] else []
      | _ => []
      end
  end.

(** The first match of the whole format, with backtracking over the
    alternatives; the text left over is returned with it. *)
Fixpoint match_format (fmt : list directive) (s : string) (f : fields)
  : option (fields * string) :=
  match fmt with
  | [] => Some (f, s)
  | d :: fmt' =>
      (fix try (alts : list (slot * nat * string)) : option (fields * string) :=
         match alts with
         | [] => None
         | (sl, v, r) :: alts' =>
             match match_format fmt' r (put sl v f) with
             | Some res => Some res
             | None => try alts'
             end
         end) (alternatives d s)
  end.

Definition leap (y : nat) : bool :=
  (Nat.eqb (y mod 4) 0 && negb (Nat.eqb (y mod 100) 0)) || Nat.eqb (y mod 400) 0.

Definition days_in_month (y m : nat) : nat :=
  match m with
  | 2 => if leap y then 29 else 28
  | 4 | 6 | 9 | 11 => 30
  | _ => 31
  end.

(** (y, m, d) compared in calendar order. *)
Definition ymd_le (a b : nat * nat * nat) : bool :=
  let '(y1, m1, d1) := a in
  let '(y2, m2, d2) := b in
  Nat.ltb y1 y2 || (Nat.eqb y1 y2 && (Nat.ltb m1 m2 || (Nat.eqb m1 m2 && Nat.leb d1 d2))).

(** A day that exists and that a nanosecond time stamp can hold
    (1677-09-22 to 2262-04-11). *)
Definition valid (f : fields) : bool :=
  Nat.leb 1 (f_month f) && Nat.leb (f_month f) 12 &&
  Nat.leb 1 (f_day f) && Nat.leb (f_day f) (days_in_month (f_year f) (f_month f)) &&
  ymd_le (1677, 9, 22) (f_year f, f_month f, f_day f) &&
  ymd_le (f_year f, f_month f, f_day f) (2262, 4, 11).

(** One string under one format; [None] is the [ValueError].  The match
    must use up the whole string. *)
Definition parse (fmt : list directive) (s : string) : option calendar_date :=
  match match_format fmt s {| f_year := 1900; f_month := 1; f_day := 1 |} with
  | Some (f, EmptyString) =>
      if valid f then Some {| year := f_year f; month := f_month f; day := f_day f |}
      else None
  | _ => None
  end.

(** Strings that stand for NaT. *)
Definition nat_strings : list string := [""; "NaT"; "nat"; "NAT"; "nan"; "NaN"; "NAN"].

(** One element of the series: NaN and the NaT strings give NaT, text is
    parsed, a number never has the shape of one of the formats. *)
Definition element (fmt : list directive) (c : cell) : option (option calendar_date) :=
  match c with
  | CNaN => Some None
  | CText s =>
      if existsb (String.eqb s) nat_strings then Some None
      else Some <$> parse fmt s
  | CInt _ | CNum _ => None
  end.

(** [pd.to_datetime(series, format=fmt)]: every element under the one
    format, or the [ValueError] ([None]). *)
Fixpoint series (fmt : list directive) (cs : list cell) : option (list (option calendar_date)) :=
  match cs with
  | [] => Some []
  | c :: cs' =>
      match element fmt c, series fmt cs' with
      | Some d, Some ds => Some (d :: ds)
      | _, _ => None
      end
  end.

End Strptime.

Import Strptime.

Definition fmt_dmY_slash : list directive := [Pd; Lit "/"; Pm; Lit "/"; PY].   (* %d/%m/%Y *)
Definition fmt_dmY_dash : list directive := [Pd; Lit "-"; Pm; Lit "-"; PY].    (* %d-%m-%Y *)
Definition fmt_Ymd_dash : list directive := [PY; Lit "-"; Pm; Lit "-"; Pd].    (* %Y-%m-%d *)
Definition fmt_dbY : list directive := [Pd; Blank; Pb; Blank; PY].             (* %d %b %Y *)
Definition fmt_dmy_slash : list directive := [Pd; Lit "/"; Pm; Lit "/"; Py].   (* %d/%m/%y *)
Definition fmt_mdY_slash : list directive := [Pm; Lit "/"; Pd; Lit "/"; PY].   (* %m/%d/%Y *)

Definition date_formats : list (list directive) :=
  [fmt_dmY_slash; fmt_dmY_dash; fmt_Ymd_dash; fmt_dbY; fmt_dmy_slash; fmt_mdY_slash].

(** The loop over the formats: the first one that reads the whole series
    is returned. *)
Fixpoint first_format (fmts : list (list directive)) (cs : list cell)
  : option (list (option calendar_date)) :=
  match fmts with
  | [] => None
  | fmt :: fmts' =>
      match Strptime.series fmt cs with
      | Some ds => Some ds
      | None => first_format fmts' cs
      end
  end.

Definition _to_date {I : DateInference} (series : list cell)
  : result (list (option calendar_date)) :=
  match first_format date_formats series with
  | Some ds => Ok ds
  | None => to_datetime_mixed series
  end.

(* ===================================================================== *)
(** ** parsers.py: [_normalise] *)
(* ===================================================================== *)

(** One row through [_normalise]; the steps are row-local, so the column
    operations of the source are applied to each row in turn. *)
Definition normalise_row (source : string) (r : partial_row) : option Transaction :=
  (* df.dropna(subset=["date", "amount"]) *)
  d ← date_ r;
  if Frame.isna (amount_ r) then None else
  (* pd.to_numeric(df["amount"], errors="coerce").abs() *)
  match Num.abs <$> Frame.to_numeric (amount_ r) with
  | Some a =>
      (* df[df["amount"] > 0] *)
      if Num.gt0 a
      then Some {| date := d; description := description_ r; amount := a;
                   source_file := source |}
      else None
  | None => None
  end.

Definition _normalise (df : list partial_row) (source : string) : list Transaction :=
  omap (normalise_row source) df.

(* ===================================================================== *)
(** ** parsers.py: the recognizers *)
(* ===================================================================== *)

(** What a recognizer returns: [None] when it declines, a table when it
    claims the file. *)
Definition outcome : Type := result (option (list Transaction)).

Module Rows.

(** The three columns assembled into a frame. *)
Fixpoint zip3 (ds : list (option calendar_date)) (xs ys : list cell) : list partial_row :=
  match ds, xs, ys with
  | d :: ds', x :: xs', y :: ys' =>
      {| date_ := d; description_ := x; amount_ := y |} :: zip3 ds' xs' ys'
  | _, _, _ => []
  end.

Definition amount_is (p : decimal -> bool) (r : partial_row) : bool :=
  match Frame.to_numeric (amount_ r) with
  | Some d => p d
  | None => false
  end.

(** [df[df["amount"] < 0]] and [df[df["amount"] > 0]] *)
Definition negative (df : list partial_row) : list partial_row :=
  filter (fun r => amount_is Num.lt0 r = true) df.
Definition positive (df : list partial_row) : list partial_row :=
  filter (fun r => amount_is Num.gt0 r = true) df.

(** [df["amount"] = df["amount"].abs()] *)
Definition abs_amount (df : list partial_row) : list partial_row :=
  map (fun r => {| date_ := date_ r; description_ := description_ r;
                   amount_ := Frame.of_numeric (Num.abs <$> Frame.to_numeric (amount_ r)) |})
      df.

(** [pd.to_numeric(x.astype(str).str.replace(",", ""), errors="coerce")] *)
Definition numeric_no_commas (c : cell) : cell :=
  Frame.of_numeric (Num.of_string (Text.remove "," (Frame.astype_str c))).

(** [pd.to_numeric(x, errors="coerce")] *)
Definition numeric (c : cell) : cell := Frame.of_numeric (Frame.to_numeric c).

(** Rows of [df] kept by a boolean mask. *)
Fixpoint mask_rows (mask : list bool) (rs : list (list cell)) : list (list cell) :=
  match mask, rs with
  | b :: mask', r :: rs' => if b then r :: mask_rows mask' rs' else mask_rows mask' rs'
  | _, _ => []
  end.

(** [df.get(name)], when the column is there. *)
Definition get (name : string) (df : frame) : option (list cell) :=
  match Frame.col name df with
  | Ok c => Some c
  | Raise _ => None
  end.

End Rows.

Section Recognizers.
Context {I : DateInference}.

Definition _parse_monzo (df_raw : frame) (source : string) : frame * outcome :=
  let cols := Frame.lowered df_raw in
  if negb (Frame.has "transaction id" cols) then (df_raw, Ok None) else
  let df_raw := Frame.set_columns cols df_raw in
  (df_raw,
   date_col ← Frame.col "date" df_raw;
   dates ← _to_date date_col;
   let descs :=
     match Rows.get "name" df_raw, Rows.get "description" df_raw with
     | Some c, _ => c
     | None, Some c => c
     | None, None => map (fun _ => CText "") dates
     end in
   amount_col ← Frame.col "amount" df_raw;
   (* Monzo amounts are negative for debits *)
   let raw_amount := map Rows.numeric amount_col in
   let df := Rows.zip3 dates descs raw_amount in
   let df := Rows.negative df in
   let df := Rows.abs_amount df in
   Ok (Some (_normalise df source))).

Definition _parse_starling (df_raw : frame) (source : string) : frame * outcome :=
  let cols := Frame.lowered df_raw in
  if negb (Frame.has "counter party" cols) && negb (Frame.has "counterparty" cols)
  then (df_raw, Ok None) else
  let df_raw := Frame.set_columns cols df_raw in
  let cp_col := if Frame.has "counter party" cols then "counter party" else "counterparty" in
  let amt_col :=
    match filter (fun c => Text.contains "amount" c && Text.contains "gbp" c = true) cols with
    | c :: _ => c
    | [] =>
        match filter (fun c => Text.contains "amount" c = true) cols with
        | c :: _ => c
        | [] => "amount"
        end
    end in
  (df_raw,
   date_col ← Frame.col "date" df_raw;
   dates ← _to_date date_col;
   let ref := default (map (fun _ => CText "") (rows df_raw)) (Rows.get "reference" df_raw) in
   cp ← Frame.col cp_col df_raw;
   let descs :=
     zip_with (fun a b => CText (Frame.astype_str a +:+ " " +:+ Frame.astype_str b)) cp ref in
   amount_col ← Frame.col amt_col df_raw;
   let raw_amount := map Rows.numeric_no_commas amount_col in
   let df := Rows.zip3 dates descs raw_amount in
   let df := Rows.negative df in
   let df := Rows.abs_amount df in
   Ok (Some (_normalise df source))).

Definition _parse_revolut (df_raw : frame) (source : string) : frame * outcome :=
  let cols := Frame.lowered df_raw in
  if negb (Frame.has "completed date" cols) && negb (Frame.has "started date" cols)
  then (df_raw, Ok None) else
  let df_raw := Frame.set_columns cols df_raw in
  let date_col := if Frame.has "completed date" cols then "completed date" else "started date" in
  (df_raw,
   date_cells ← Frame.col date_col df_raw;
   dates ← _to_date date_cells;
   descs ← Frame.col "description" df_raw;
   amount_col ← Frame.col "amount" df_raw;
   let raw_amount := map Rows.numeric_no_commas amount_col in
   let df := Rows.zip3 dates descs raw_amount in
   let df := Rows.negative df in
   let df := Rows.abs_amount df in
   Ok (Some (_normalise df source))).

Definition _parse_lloyds (df_raw : frame) (source : string) : frame * outcome :=
  let cols := Frame.lowered df_raw in
  if negb (Frame.has "transaction description" cols) || negb (Frame.has "debit amount" cols)
  then (df_raw, Ok None) else
  let df_raw := Frame.set_columns cols df_raw in
  (df_raw,
   date_cells ← Frame.col "transaction date" df_raw;
   dates ← _to_date date_cells;
   descs ← Frame.col "transaction description" df_raw;
   amount_col ← Frame.col "debit amount" df_raw;
   let df := Rows.zip3 dates descs (map Rows.numeric_no_commas amount_col) in
   let df := Rows.positive df in
   Ok (Some (_normalise df source))).

Definition _parse_hsbc (df_raw : frame) (source : string) : frame * outcome :=
  let cols := Frame.lowered df_raw in
  if negb (Frame.has "debit" cols) || negb (Frame.has "credit" cols)
  then (df_raw, Ok None) else
  let df_raw := Frame.set_columns cols df_raw in
  (df_raw,
   desc_col ← (if Frame.has "description" cols then Ok "description"
               else match nth_error cols 1 with
                    | Some c => Ok c
                    | None => Raise IndexError
                    end);
   date_cells ← Frame.col "date" df_raw;
   dates ← _to_date date_cells;
   descs ← Frame.col desc_col df_raw;
   amount_col ← Frame.col "debit" df_raw;
   let df := Rows.zip3 dates descs (map Rows.numeric_no_commas amount_col) in
   let df := Rows.positive df in
   Ok (Some (_normalise df source))).

(** Amex UK CSV with Transaction Date, Billing Amount, Merchant, Debit or
    Credit. *)
Definition _parse_amex_detailed (df_raw : frame) (source : string) : frame * outcome :=
  let cols := Frame.lowered df_raw in
  if negb (Frame.has "billing amount" cols) || negb (Frame.has "merchant" cols)
     || negb (Frame.has "debit or credit" cols)
  then (df_raw, Ok None) else
  let df_raw := Frame.set_columns cols df_raw in
  let date_col := if Frame.has "transaction date" cols then "transaction date" else "posting date" in
  (df_raw,
   (* keep only debits (DBIT) *)
   flag ← Frame.col "debit or credit" df_raw;
   flag ← Frame.str_accessor flag;
   let mask := map (fun c => match c with
                             | CText s => String.eqb (Text.upper s) "DBIT"
                             | _ => false
                             end) flag in
   let df_debits := {| columns := cols; rows := Rows.mask_rows mask (rows df_raw) |} in
   match rows df_debits with
   | [] => Ok None
   | _ =>
       date_cells ← Frame.col date_col df_debits;
       dates ← _to_date date_cells;
       merchant ← Frame.col "merchant" df_debits;
       let descs := map (fun c => CText (Text.strip (Frame.astype_str c))) merchant in
       amount_col ← Frame.col "billing amount" df_debits;
       let df := Rows.zip3 dates descs (map Rows.numeric_no_commas amount_col) in
       let df := Rows.positive df in
       Ok (Some (_normalise df source))
   end).

Definition _parse_amex (df_raw : frame) (source : string) : frame * outcome :=
  let cols := Frame.lowered df_raw in
  if Frame.has "amount" cols && Frame.has "description" cols && Nat.leb (length cols) 6 then
    let df_raw := Frame.set_columns cols df_raw in
    (df_raw,
     date_cells ← Frame.col "date" df_raw;
     dates ← _to_date date_cells;
     descs ← Frame.col "description" df_raw;
     amount_col ← Frame.col "amount" df_raw;
     let df := Rows.zip3 dates descs (map Rows.numeric_no_commas amount_col) in
     (* Amex: positive = charge, negative = credit/refund *)
     let df := Rows.positive df in
     Ok (Some (_normalise df source)))
  else (df_raw, Ok None).

(** The column choice of the generic parser: a candidate name that is
    present, else the first label containing one of the fragments, else a
    position. *)
Definition pick_column (candidates fragments : list string) (cols : list string)
    (fallback : result string) : result string :=
  match find (fun candidate => Frame.has candidate cols) candidates with
  | Some c => Ok c
  | None =>
      match find (fun c => existsb (fun fr => Text.contains fr c) fragments) cols with
      | Some c => Ok c
      | None => fallback
      end
  end.

Definition item (cols : list string) (i : nat) : result string :=
  match nth_error cols i with
  | Some c => Ok c
  | None => Raise IndexError
  end.

(** [pd.to_numeric(x.astype(str).str.replace(",", "").str.replace("£", ""),
    errors="coerce")] *)
Definition generic_numeric (c : cell) : cell :=
  Frame.of_numeric (Num.of_string (Text.remove "£" (Text.remove "," (Frame.astype_str c)))).

(** Best-effort parser: look for date-like, description-like and
    amount-like columns. *)
Definition _parse_generic (df_raw : frame) (source : string)
  : frame * result (list Transaction) :=
  let cols := Frame.lowered df_raw in
  let df_raw := Frame.set_columns cols df_raw in
  (df_raw,
   date_col ← pick_column
     ["date"; "transaction date"; "trans date"; "posted date"; "value date"]
     ["date"] cols (item cols 0);
   desc_col ← pick_column
     ["description"; "transaction description"; "narrative"; "details"; "memo"; "name";
      "payee"; "merchant"]
     ["desc"; "narr"; "detail"; "memo"] cols
     (if Nat.ltb 1 (length cols) then item cols 1 else item cols 0);
   amt_col ← pick_column
     ["amount"; "debit"; "debit amount"; "value"; "transaction amount"]
     ["amount"; "debit"; "value"] cols (item cols (length cols - 1));
   date_cells ← Frame.col date_col df_raw;
   dates ← _to_date date_cells;
   desc_cells ← Frame.col desc_col df_raw;
   let descs := map (fun c => CText (Frame.astype_str c)) desc_cells in
   amount_col ← Frame.col amt_col df_raw;
   let raw_amount := map generic_numeric amount_col in
   let df := Rows.abs_amount (Rows.zip3 dates descs raw_amount) in
   Ok (_normalise df source)).

(* ===================================================================== *)
(** ** parsers.py: the public functions *)
(* ===================================================================== *)

Definition parser : Type := frame -> string -> frame * outcome.

Definition PARSERS : list parser :=
  [_parse_amex_detailed;
   _parse_monzo;
   _parse_starling;
   _parse_revolut;
   _parse_lloyds;
   _parse_hsbc;
   _parse_amex].

(** The loop [for parser_fn in PARSERS]: the frame, as the recognizers
    tried so far left it, and the first non-empty table, if any. *)
Fixpoint try_parsers (ps : list parser) (df_raw : frame) (filename : string)
  : frame * result (option (list Transaction)) :=
  match ps with
  | [] => (df_raw, Ok None)
  | parser_fn :: ps' =>
      match parser_fn df_raw filename with
      | (df_raw', Raise e) => (df_raw', Raise e)
      | (df_raw', Ok (Some (t :: ts))) => (df_raw', Ok (Some (t :: ts)))
      | (df_raw', Ok _) => try_parsers ps' df_raw' filename
      end
  end.

(** [parse_statement] from the point where [df_raw] has been read. *)
Definition parse_frame (df_raw : frame) (filename : string) : result (list Transaction) :=
  if Frame.empty df_raw then Ok [] else
  match try_parsers PARSERS df_raw filename with
  | (_, Raise e) => Raise e
  | (_, Ok (Some result)) => Ok result
  | (df_raw', Ok None) => (_parse_generic df_raw' filename).2
  end.

End Recognizers.

(* ===================================================================== *)
(** ** The reader [pd.read_csv(io.StringIO(text), on_bad_lines="skip")] *)
(* ===================================================================== *)

(** A model of the library call on comma-separated text with a header
    line: quoted fields, blank lines skipped, rows longer than expected
    skipped, shorter rows padded with NaN, the default NaN tokens, and a
    column read as [int64], [float64] or text.  Boolean columns, exponent
    notation and the renaming of a label that collides with a renamed one
    are outside the model. *)
Module Csv.

Inductive state : Type :=
| StartRecord
| WhitespaceLine (pending : string)
| StartField
| InField
| InQuoted
| QuoteInQuoted.

Definition is_blank (c : ascii) : bool :=
  Nat.eqb (Text.code c) 32 || Nat.eqb (Text.code c) 9.

Definition push (c : ascii) (field : string) : string := field +:+ String c EmptyString.

(** The tokenizer: the rows read so far, the fields of the current row and
    the current field are carried along the text.  [None] is the end of
    the text inside a quoted field. *)
Fixpoint tokenize (st : state) (rws : list (list string)) (row : list string)
    (field : string) (s : string) : option (list (list string)) :=
  match s with
  | EmptyString =>
      match st with
      | StartRecord | WhitespaceLine _ => Some rws
      | InQuoted => None
      | StartField | InField | QuoteInQuoted => Some (rws ++ [row ++ [field]])
      end
  | String c s' =>
      let newline := Nat.eqb (Text.code c) 10 in
      let comma := Nat.eqb (Text.code c) 44 in
      let dquote := Nat.eqb (Text.code c) 34 in
      match st with
      | StartRecord =>
          if newline then tokenize StartRecord rws [] EmptyString s'
          else if is_blank c then tokenize (WhitespaceLine (String c EmptyString)) rws [] EmptyString s'
          else if dquote then tokenize InQuoted rws [] EmptyString s'
          else if comma then tokenize StartField rws [EmptyString] EmptyString s'
          else tokenize InField rws [] (String c EmptyString) s'
      | WhitespaceLine pending =>
          if newline then tokenize StartRecord rws [] EmptyString s'
          else if is_blank c then tokenize (WhitespaceLine (push c pending)) rws [] EmptyString s'
          else if comma then tokenize StartField rws [pending] EmptyString s'
          else tokenize InField rws [] (push c pending) s'
      | StartField =>
          if newline then tokenize StartRecord (rws ++ [row ++ [EmptyString]]) [] EmptyString s'
          else if dquote then tokenize InQuoted rws row EmptyString s'
          else if comma then tokenize StartField rws (row ++ [EmptyString]) EmptyString s'
          else tokenize InField rws row (String c EmptyString) s'
      | InField =>
          if newline then tokenize StartRecord (rws ++ [row ++ [field]]) [] EmptyString s'
          else if comma then tokenize StartField rws (row ++ [field]) EmptyString s'
          else tokenize InField rws row (push c field) s'
      | InQuoted =>
          if dquote then tokenize QuoteInQuoted rws row field s'
          else tokenize InQuoted rws row (push c field) s'
      | QuoteInQuoted =>
          if dquote then tokenize InQuoted rws row (push c field) s'
          else if comma then tokenize StartField rws (row ++ [field]) EmptyString s'
          else if newline then tokenize StartRecord (rws ++ [row ++ [field]]) [] EmptyString s'
          else tokenize InField rws row (push c field) s'
      end
  end.

(** Rows after the header: the first may be wider than the header (its
    leading fields are then the index); each later row is skipped when
    longer than the width in force and padded when shorter. *)
Definition pad (width : nat) (row : list string) : list string :=
  row ++ repeat EmptyString (width - length row).

Definition data_rows (n : nat) (body : list (list string)) : list (list string) :=
  match body with
  | [] => []
  | first :: _ =>
      let width := Nat.max n (length first) in
      map (fun r => drop (width - n) (pad width r))
          (filter (fun r => length r <= width) body)
  end.

Definition na_values : list string :=
  [EmptyString; "#N/A"; "#N/A N/A"; "#NA"; "-1.#IND"; "-1.#QNAN"; "-NaN"; "-nan";
   "1.#IND"; "1.#QNAN"; "<NA>"; "N/A"; "NA"; "NULL"; "NaN"; "None"; "n/a"; "nan"; "null"].

Definition is_na (f : string) : bool := existsb (String.eqb f) na_values.

Definition int_literal (f : string) : option Z :=
  match Num.of_string f with
  | Some (Dec z 0) => if Text.contains "." f then None else Some z
  | _ => None
  end.

Inductive kind : Type := KInt | KFloat | KObject.

Definition kind_of (fields : list string) : kind :=
  let present := filter (fun f => is_na f = false) fields in
  if forallb (fun f => bool_decide (is_Some (int_literal f))) present
     && Nat.eqb (length present) (length fields) then KInt
  else if forallb (fun f => bool_decide (is_Some (Num.of_string f))) present then KFloat
  else KObject.

Definition convert (k : kind) (f : string) : cell :=
  if is_na f then CNaN else
  match k with
  | KInt => match int_literal f with Some z => CInt z | None => CNaN end
  | KFloat => Frame.of_numeric (Num.of_string f)
  | KObject => CText f
  end.

Definition column (j : nat) (body : list (list string)) : list string :=
  map (fun r => nth j r EmptyString) body.

(** Header labels: an empty label is named after its position, a repeated
    label gets the count of its earlier occurrences as a suffix. *)
Fixpoint labels (i : nat) (seen : list string) (header : list string) : list string :=
  match header with
  | [] => []
  | h :: header' =>
      let h := if Text.is_empty h then "Unnamed: " +:+ Num.string_of_nat i else h in
      let k := length (filter (fun x => x = h) seen) in
      (if Nat.eqb k 0 then h else h +:+ "." +:+ Num.string_of_nat k)
      :: labels (S i) (h :: seen) header'
  end.

Definition read_csv (text : string) : result frame :=
  match tokenize StartRecord [] [] EmptyString text with
  | None => Raise ParserError
  | Some [] => Raise EmptyDataError
  | Some (header :: body) =>
      let n := length header in
      let body := data_rows n body in
      let kinds := map (fun j => kind_of (column j body)) (seq 0 n) in
      Ok {| columns := labels 0 [] header;
            rows := map (fun r => zip_with convert kinds r) body |}
  end.

End Csv.

(* ===================================================================== *)
(** ** parsers.py: [parse_statement] and [parse_multiple] *)
(* ===================================================================== *)

(** An uploaded file as the program sees it: the text its bytes decode to
    (the loop over utf-8 and latin-1 always ends with one, latin-1 accepting
    every byte string), and what [pd.read_excel] makes of it. *)
Record upload : Type := { decoded : string; workbook : result frame }.

(** The index of the first line with a comma and at least three
    comma-separated fields, or 0. *)
Fixpoint first_table_line (i : nat) (lines : list string) : nat :=
  match lines with
  | [] => 0
  | line :: lines' =>
      if Text.contains "," line && Nat.leb 3 (length (Text.split_on "," line))
      then i else first_table_line (S i) lines'
  end.

Definition parse_statement {I : DateInference} (file : upload) (filename : string)
  : result (list Transaction) :=
  let filename_lower := Text.lower filename in
  df_raw ←
    (if Text.endswith ".xlsx" filename_lower || Text.endswith ".xls" filename_lower
     then workbook file
     else
       let text := decoded file in
       (* skip leading blank / header lines that some banks add *)
       let lines := Text.splitlines (Text.strip text) in
       let start := first_table_line 0 lines in
       let cleaned := Text.join Text.LF (drop start lines) in
       Csv.read_csv cleaned);
  parse_frame df_raw filename.

(** The loop of [parse_multiple] that fills [frames]. *)
Fixpoint parse_each {I : DateInference} (files : list (upload * string))
  : result (list (list Transaction)) :=
  match files with
  | [] => Ok []
  | (fobj, fname) :: files' =>
      t ← parse_statement fobj fname;
      ts ← parse_each files';
      Ok (t :: ts)
  end.

(** Parse several statement files and concatenate into one table. *)
Definition parse_multiple {I : DateInference} (files : list (upload * string))
  : result (list Transaction) :=
  frames ← parse_each files;
  Ok (concat frames).

(* ===================================================================== *)
(** ** Predicates used in the statements *)
(* ===================================================================== *)

(** The amount of a transaction is a strictly positive number. *)
Definition positive_amount (t : Transaction) : Prop := (0 < unscaled (amount t))%Z.

(** The rows [_normalise] keeps: a date, and an amount that reads as a
    number other than zero. *)
Definition survives (r : partial_row) : bool :=
  match date_ r, Frame.to_numeric (amount_ r) with
  | Some _, Some a => negb (unscaled a =? 0)%Z
  | _, _ => false
  end.

(** The frame after a recognizer that claimed it has run: its labels are
    lower-cased and trimmed. *)
Definition renamed (df : frame) : frame := Frame.set_columns (Frame.lowered df) df.

(** A recognizer misses a frame when it declines or returns no row. *)
Definition misses {I : DateInference} (df : frame) (filename : string) (p : parser) : Prop :=
  (p df filename).2 = Ok None \/ (p df filename).2 = Ok (Some []).


(* ===================================================================== *)
(** ** Sample data used by the worked examples *)
(* ===================================================================== *)

Definition demo_config : CategoryConfig :=
  {| rules := [("Transport", ["uber"; "tfl"]); ("Groceries", ["tesco"])];
     icons := [("Transport", "T"); ("Groceries", "G")];
     uncategorised_label := "Other / Uncategorised";
     uncategorised_icon := "?";
     itemised_threshold := Dec 30 0 |}.

Definition demo_categoriser : Categoriser :=
  {| config := demo_config; overrides := {| _data := ∅ |} |}.

Definition fresh_disk : disk := {| overrides_json := None; writable := true |}.


(** An inference that reads no date: every call raises. *)
Definition no_inference : DateInference :=
  {| to_datetime_mixed := fun _ => Raise ValueError |}.

Definition csv_file (text : string) : upload :=
  {| decoded := text; workbook := Raise ValueError |}.

(** The statement of the end-to-end scenario. *)
Definition tesco_csv : string :=
  "Date,Description,Amount" +:+ Text.LF +:+
  "28/01/2026,TESCO STORES,45.30" +:+ Text.LF +:+
  "27/01/2026,UBER *TRIP,-5.00" +:+ Text.LF.

(** A spreadsheet upload that [pd.read_excel] cannot decode. *)
Definition broken_workbook : upload :=
  {| decoded := EmptyString; workbook := Raise ValueError |}.

(** A Monzo-looking export without a date column. *)
Definition orphan_monzo_csv : string :=
  "Transaction ID,Name,Amount" +:+ Text.LF +:+
  "tx_1,COFFEE,-3.20" +:+ Text.LF.

Definition tesco_row (filename : string) : Transaction :=
  {| date := {| year := 2026; month := 1; day := 28 |};
     description := CText "TESCO STORES";
     amount := Dec 453 1;
     source_file := filename |}.

Definition feb_1_2026 : calendar_date := {| year := 2026; month := 2; day := 1 |}.
Definition jan_2_2026 : calendar_date := {| year := 2026; month := 1; day := 2 |}.
Definition feb_13_2026 : calendar_date := {| year := 2026; month := 2; day := 13 |}.




(* ===================================================================== *)
(** ** Further notions used in the statements *)
(* ===================================================================== *)

(** A call on the override store. *)
Inductive store_call : Type :=
| CallSet (description category : string)
| CallRemove (description : string).

(** The calls made one after the other on the same store object and the
    same backing file, with the result of each. *)
Fixpoint run_calls {J : Json} (calls : list store_call) (self : OverrideStore) (d : disk)
  : OverrideStore * disk * list (result unit) :=
  match calls with
  | [] => (self, d, [])
  | call :: calls' =>
      let '(self', d', r) :=
        match call with
        | CallSet description category => OverrideStore.set self description category d
        | CallRemove description => OverrideStore.remove self description d
        end in
      let '(self'', d'', rs) := run_calls calls' self' d' in
      (self'', d'', r :: rs)
  end.

(** The backing file and the object agree: constructing a store from the
    file gives the mapping the object holds. *)
Definition in_sync {J : Json} (self : OverrideStore) (d : disk) : Prop :=
  OverrideStore.init d = Ok self.

(** Text made of white space only. *)
Fixpoint all_space (s : string) : bool :=
  match s with
  | EmptyString => true
  | String c s' => Text.is_space c && all_space s'
  end.

(** Some keyword of the list occurs in the lower-cased description. *)
Definition hits (keywords : list string) (description : string) : Prop :=
  exists keyword, In keyword keywords /\ Text.contains keyword (Text.lower description) = true.

(** Two small rule sets for the examples. *)
Definition overlapping_rules : Categoriser :=
  {| config := {| rules := [("Transport", ["uber"; "tfl"]); ("Food", ["eats"; "tesco"])];
                  icons := []; uncategorised_label := "Other"; uncategorised_icon := "?";
                  itemised_threshold := Dec 30 0 |};
     overrides := {| _data := ∅ |} |}.

Definition catch_all_rules : Categoriser :=
  {| config := {| rules := [("Transport", ["uber"]); ("Misc", ["fee"; EmptyString]);
                            ("Food", ["tesco"])];
                  icons := []; uncategorised_label := "Other"; uncategorised_icon := "?";
                  itemised_threshold := Dec 30 0 |};
     overrides := {| _data := ∅ |} |}.

(** A Monzo-looking frame without a date column. *)
Definition orphan_monzo_frame : frame :=
  {| columns := ["Transaction ID"; "Name"; "Amount"];
     rows := [[CText "tx_1"; CText "COFFEE"; CNum (Dec (-32) 1)]] |}.

(** The same table under two spellings of its header. *)
Definition tesco_frame : frame :=
  {| columns := ["Date"; "Description"; "Amount"];
     rows := [[CText "28/01/2026"; CText "TESCO STORES"; CNum (Dec 453 1)]] |}.

Definition tesco_frame_padded : frame :=
  {| columns := [" DATE"; "description  "; "AmounT"];
     rows := [[CText "28/01/2026"; CText "TESCO STORES"; CNum (Dec 453 1)]] |}.

(** The number of commas in a line. *)
Fixpoint commas (s : string) : nat :=
  match s with
  | EmptyString => 0
  | String c s' => (if Ascii.eqb c "," then 1 else 0) + commas s'
  end.


(** A conversion of amount cells that yields numbers or NaN. *)
Definition numeric_conversion (conv : cell -> cell) : Prop :=
  forall c, exists o, conv c = Frame.of_numeric o.

(** A Monzo export with money out and money in. *)
Definition monzo_frame : frame :=
  {| columns := ["Transaction ID"; "Date"; "Name"; "Amount"];
     rows := [[CText "tx_1"; CText "28/01/2026"; CText "COFFEE"; CNum (Dec (-32) 1)];
              [CText "tx_2"; CText "27/01/2026"; CText "SALARY"; CInt 2000]] |}.

Definition coffee_row (filename : string) : Transaction :=
  {| date := {| year := 2026; month := 1; day := 28 |};
     description := CText "COFFEE";
     amount := Dec 32 1;
     source_file := filename |}.

(* ===================================================================== *)
(** ** main.py: the colour of a category *)
(* ===================================================================== *)

Definition PALETTE : list string :=
  ["#667eea"; "#764ba2"; "#f7971e"; "#00b894"; "#e17055";
   "#0984e3"; "#6c5ce7"; "#fdcb6e"; "#00cec9"; "#d63031";
   "#e84393"; "#55efc4"].

(** [PALETTE[idx % len(PALETTE)]]; the remainder takes the sign of the
    divisor, as [Z.modulo] does. *)
Definition cat_colour (idx : Z) : result string :=
  match nth_error PALETTE (Z.to_nat (idx mod Z.of_nat (length PALETTE))) with
  | Some colour => Ok colour
  | None => Raise IndexError
  end.

(* ===================================================================== *)
(** ** categoriser.py: [CategoryConfig.load] *)
(* ===================================================================== *)

(** The configuration document as [json.loads] returns it, for documents
    of the shape the program is written for: an object whose members, where
    present, have the types below.  A key that may be missing is an
    [option]; the members of an object are listed in document order, each
    name once. *)
Record category_info : Type := {
  keywords_ : option (list string);
  icon_ : option string
}.

Record uncategorized_info : Type := {
  label_ : option string;
  uncategorized_icon_ : option string
}.

Record config_document : Type := {
  categories_ : option (list (string * category_info));
  uncategorized_ : option uncategorized_info;
  itemised_threshold_gbp_ : option decimal
}.

Module CategoryConfig.

(** [d[key]] *)
Definition getitem {A : Type} (key : string) (member : option A) : result A :=
  match member with
  | Some v => Ok v
  | None => Raise (KeyError key)
  end.

(** The loop over [data["categories"].items()] that fills [rules] and
    [icons]. *)
Fixpoint load_categories (items : list (string * category_info))
  : result (list (string * list string) * list (string * string)) :=
  match items with
  | [] => Ok ([], [])
  | (name, info) :: items' =>
      keywords ← getitem "keywords" (keywords_ info);
      let rule := (name, map Text.lower keywords) in
      let icon := (name, default "" (icon_ info)) in
      filled ← load_categories items';
      Ok (rule :: filled.1, icon :: filled.2)
  end.

(** [load] from the point where [data] has been read. *)
Definition load (data : config_document) : result CategoryConfig :=
  items ← getitem "categories" (categories_ data);
  filled ← load_categories items;
  Ok {| rules := filled.1;
        icons := filled.2;
        uncategorised_label :=
          default "Other / Uncategorised" (uncategorized_ data ≫= label_);
        uncategorised_icon :=
          default "❓" (uncategorized_ data ≫= uncategorized_icon_);
        itemised_threshold := default (Dec 30 0) (itemised_threshold_gbp_ data) |}.

End CategoryConfig.

(** A keyword of the description, whatever the letter case of either. *)
Definition mentions (description : string) (info : category_info) : Prop :=
  exists keyword, In keyword (default [] (keywords_ info)) /\
                  Text.contains (Text.lower keyword) (Text.lower description) = true.

(** A configuration document with upper-case keywords. *)
Definition shouting_document : config_document :=
  {| categories_ := Some [("Transport", {| keywords_ := Some ["UBER"; "TfL"]; icon_ := Some "T" |});
                          ("Groceries", {| keywords_ := Some ["Tesco"]; icon_ := None |})];
     uncategorized_ := None;
     itemised_threshold_gbp_ := None |}.

(** A backing file that holds no JSON document. *)
Definition corrupt_disk : disk :=
  {| overrides_json := Some {| readable := true; body := Text "{not json" |};
     writable := true |}.

(* ===================================================================== *)
(** * Properties *)
(* ===================================================================== *)

(** ** Numbers and text *)

Example of_string_45_30 : Num.of_string "45.30" = Some (Dec 453 1).
Proof. reflexivity. Qed.
Example of_string_neg : Num.of_string " -5.00 " = Some (Dec (-5) 0).
Proof. reflexivity. Qed.
Example of_string_comma : Num.of_string "1,234.50" = None.
Proof. reflexivity. Qed.
Example to_string_ex : Num.to_string (Dec 453 1) = "45.3" /\ Num.to_string (Dec (-5) 0) = "-5.0"
  /\ Num.to_string (Dec 5 3) = "0.005".
Proof. repeat split; reflexivity. Qed.

Lemma lower_char_idem (c : ascii) : Text.lower_char (Text.lower_char c) = Text.lower_char c.
Proof. destruct c as [[] [] [] [] [] [] [] []]; reflexivity. Qed.

Lemma lower_idem (s : string) : Text.lower (Text.lower s) = Text.lower s.
Proof.
  induction s as [|c s IH]; simpl; [reflexivity|].
  now rewrite lower_char_idem, IH.
Qed.

(** ** The override store and the categoriser *)

Lemma key_lower (description : string) :
  OverrideStore.key (Text.lower description) = OverrideStore.key description.
Proof. unfold OverrideStore.key. now rewrite lower_idem. Qed.

Lemma get_after_set {J : Json} (self : OverrideStore) (description category : string) (d : disk) :
  OverrideStore.get (OverrideStore.set self description category d).1.1 description
  = Some category.
Proof.
  unfold OverrideStore.set, OverrideStore._save, OverrideStore.get.
  destruct (Path.write_text _ d) as [d' r]; simpl.
  apply lookup_insert_eq.
Qed.

Lemma save_when_writable {J : Json} (self : OverrideStore) (d : disk) :
  writable d = true ->
  exists r, OverrideStore._save self d =
    ({| overrides_json := Some {| readable := r; body := Text (json_dumps (_data self)) |};
        writable := true |}, Ok tt)
    /\ (r = match overrides_json d with Some f => readable f | None => true end).
Proof.
  intros Hw. unfold OverrideStore._save, Path.write_text. rewrite Hw.
  eexists; split; reflexivity.
Qed.

(** The cases the handler of [_load] covers: no file, a file that cannot be
    opened, and text the JSON reader rejects all give the empty mapping. *)
Lemma load_degrades {J : Json} (d : disk) :
  (overrides_json d = None -> OverrideStore._load d = Ok ∅) /\
  (forall f, overrides_json d = Some f -> readable f = false ->
     OverrideStore._load d = Ok ∅) /\
  (forall f text, overrides_json d = Some f -> readable f = true -> body f = Text text ->
     json_loads text = Raise JSONDecodeError -> OverrideStore._load d = Ok ∅).
Proof.
  unfold OverrideStore._load, Path.exists_, Path.read_text.
  repeat split.
  - intros ->. reflexivity.
  - intros f -> ->. reflexivity.
  - intros f text -> -> -> Hl. simpl. unfold mbind, result_bind. now rewrite Hl.
Qed.

(** A successful save followed by a fresh construction gives the store
    the mapping it had, provided the codec reads back what it wrote. *)
Lemma reload_after_set {J : Json} (self : OverrideStore) (d : disk) (desc X : string) :
  let out := OverrideStore.set self desc X d in
  writable d = true ->
  Path.can_read_back d = true ->
  json_loads (json_dumps (_data out.1.1)) = Ok (_data out.1.1) ->
  out.2 = Ok tt /\ OverrideStore.init out.1.2 = Ok out.1.1.
Proof.
  intros out Hw Hr Hrt. subst out. unfold OverrideStore.set in *.
  destruct (save_when_writable
              {| _data := <[OverrideStore.key desc := X]> (_data self) |} d Hw)
    as (rd & Hsave & Hrd).
  rewrite Hsave in *. simpl in *.
  assert (rd = true) as -> by (rewrite Hrd; exact Hr).
  split; [reflexivity|].
  unfold OverrideStore.init, OverrideStore._load, Path.exists_, Path.read_text; simpl.
  rewrite Hrt. reflexivity.
Qed.

(** C2. After [recategorise(desc, X)], [categorise(desc)] is [X] whatever the
    keyword rules say; and when the save went through and the codec reads
    back what it wrote, a store constructed afresh from the backing file
    gives [X] as well. *)
Theorem recategorise_override_wins {J : Json} (self : Categoriser) (d : disk) (desc X : string) :
  let out := Categoriser.recategorise self desc X d in
  let self' := out.1.1 in
  let d' := out.1.2 in
  Categoriser.categorise self' desc = X /\
  (writable d = true ->
   Path.can_read_back d = true ->
   json_loads (json_dumps (_data (overrides self'))) = Ok (_data (overrides self')) ->
   out.2 = Ok tt /\
   exists reloaded,
     OverrideStore.init d' = Ok reloaded /\
     Categoriser.categorise {| config := config self; overrides := reloaded |} desc = X).
Proof.
  unfold Categoriser.recategorise.
  pose proof (get_after_set (overrides self) desc X d) as Hget.
  pose proof (reload_after_set (overrides self) d desc X) as Hreload.
  destruct (OverrideStore.set (overrides self) desc X d) as [[st d'] r] eqn:Hset.
  simpl in *. split.
  - unfold Categoriser.categorise; simpl. now rewrite Hget.
  - intros Hw Hr Hrt. destruct (Hreload Hw Hr Hrt) as [-> Hinit].
    split; [reflexivity|]. exists st. split; [exact Hinit|].
    unfold Categoriser.categorise; simpl. now rewrite Hget.
Qed.

Lemma recategorise_override_wins_witness :
  Categoriser.categorise demo_categoriser "UBER TRIP LONDON" = "Transport" /\
  let out := @Categoriser.recategorise PyJson.codec demo_categoriser
               "UBER TRIP LONDON" "Business" fresh_disk in
  Categoriser.categorise out.1.1 "UBER TRIP LONDON" = "Business" /\
  out.2 = Ok tt /\
  exists reloaded,
    @OverrideStore.init PyJson.codec out.1.2 = Ok reloaded /\
    Categoriser.categorise {| config := demo_config; overrides := reloaded |}
      "UBER TRIP LONDON" = "Business".
Proof.
  split; [reflexivity|].
  destruct (@recategorise_override_wins PyJson.codec demo_categoriser fresh_disk
              "UBER TRIP LONDON" "Business") as [Hmem Hdisk].
  split; [exact Hmem|].
  apply Hdisk; [reflexivity | reflexivity | vm_compute; reflexivity].
Defined.

(** ** The concrete codec reads back what it writes *)

Lemma append_assoc (a b c : string) : (a +:+ b) +:+ c = a +:+ (b +:+ c).
Proof.
  induction a as [|x a IH]; [reflexivity|].
  change (String x ((a +:+ b) +:+ c) = String x (a +:+ (b +:+ c))). now f_equal.
Qed.

Ltac one_char :=
  match goal with
  | |- context [PyJson.escape_char ?c] =>
      let e := eval vm_compute in (PyJson.escape_char c) in
      change (PyJson.escape_char c) with e
  end;
  cbv beta iota delta [String.append] fix;
  cbn [PyJson.read_chars];
  lazy -[PyJson.read_chars].

Lemma read_chars_step (c : ascii) (tail s rest : string) :
  PyJson.read_chars tail = Some (s, rest) ->
  PyJson.read_chars (PyJson.escape_char c +:+ tail) = Some (String c s, rest).
Proof.
  intros IH.
  destruct c as [[] [] [] [] [] [] [] []]; one_char; rewrite IH; reflexivity.
Qed.

Lemma read_chars_escape (s rest : string) :
  PyJson.read_chars (PyJson.escape s +:+ PyJson.quote +:+ rest) = Some (s, rest).
Proof.
  induction s as [|c s IH]; [reflexivity|].
  change (PyJson.escape (String c s)) with (PyJson.escape_char c +:+ PyJson.escape s).
  rewrite append_assoc. now apply read_chars_step.
Qed.

Lemma read_str_dumps (s rest : string) :
  PyJson.read_str (PyJson.dumps_str s +:+ rest) = Some (s, rest).
Proof.
  unfold PyJson.dumps_str. rewrite !append_assoc.
  change (PyJson.read_chars (PyJson.escape s +:+ PyJson.quote +:+ rest) = Some (s, rest)).
  apply read_chars_escape.
Qed.

(** White space before a string literal is skipped, the literal is not. *)
Lemma skip_ws_dumps_str (s rest : string) :
  PyJson.skip_ws (PyJson.dumps_str s +:+ rest) = PyJson.dumps_str s +:+ rest.
Proof. unfold PyJson.dumps_str. rewrite !append_assoc. reflexivity. Qed.

(** After a key: the colon, the value, and what follows the value. *)
Lemma read_value (v rest : string) :
  PyJson.expect ":" (PyJson.skip_ws (": " +:+ PyJson.dumps_str v +:+ rest))
  ≫= (λ s2, PyJson.read_str (PyJson.skip_ws s2))
  = Some (v, rest).
Proof.
  change (PyJson.expect ":" (PyJson.skip_ws (": " +:+ PyJson.dumps_str v +:+ rest)))
    with (Some (" " +:+ PyJson.dumps_str v +:+ rest)).
  cbn [mbind option_bind].
  change (PyJson.skip_ws (" " +:+ PyJson.dumps_str v +:+ rest))
    with (PyJson.skip_ws (PyJson.dumps_str v +:+ rest)).
  rewrite skip_ws_dumps_str. apply read_str_dumps.
Qed.

(** One step of the member loop on the text of a member. *)
Lemma read_members_item (k v rest : string) (fuel : nat) :
  PyJson.read_members (S fuel) (PyJson.newline +:+ PyJson.dumps_item (k, v) +:+ rest)
  = match PyJson.skip_ws rest with
    | EmptyString => None
    | String c s4 =>
        if Ascii.eqb c "," then
          '(kvs, rest') ← PyJson.read_members fuel s4; Some ((k, v) :: kvs, rest')
        else if Ascii.eqb c "}" then Some ([(k, v)], s4)
        else None
    end.
Proof.
  cbn [PyJson.read_members]. unfold PyJson.dumps_item; cbn [fst snd].
  rewrite !append_assoc.
  change (PyJson.skip_ws (PyJson.newline +:+ "  " +:+ ?t)) with (PyJson.skip_ws t).
  rewrite skip_ws_dumps_str, read_str_dumps. cbn [mbind option_bind].
  pose proof (read_value v rest) as Hv.
  destruct (PyJson.expect ":" _) as [s2|]; [|discriminate].
  cbn [mbind option_bind] in *. rewrite Hv. reflexivity.
Qed.

(** The text of the members of an object, one per line. *)
Lemma read_members_dumps (items : list (string * string)) (kv : string * string)
    (fuel : nat) (tail : string) :
  length items < fuel ->
  PyJson.read_members fuel
    (PyJson.newline +:+ Text.join ("," +:+ PyJson.newline) (map PyJson.dumps_item (kv :: items))
       +:+ PyJson.newline +:+ "}" +:+ tail)
  = Some (kv :: items, tail).
Proof.
  revert kv fuel. induction items as [|kv' items IH]; intros [k v] fuel Hfuel;
    (destruct fuel as [|fuel]; [simpl in Hfuel; lia|]).
  - cbn [map Text.join]. rewrite read_members_item. reflexivity.
  - change (Text.join ("," +:+ PyJson.newline) (map PyJson.dumps_item ((k, v) :: kv' :: items)))
      with (PyJson.dumps_item (k, v) +:+ ("," +:+ PyJson.newline) +:+
            Text.join ("," +:+ PyJson.newline) (map PyJson.dumps_item (kv' :: items))).
    rewrite !append_assoc, read_members_item.
    change (PyJson.skip_ws ("," +:+ ?t)) with (String "," t).
    cbn iota. change (Ascii.eqb "," ",") with true. cbn iota.
    rewrite IH by (simpl in *; lia). reflexivity.
Qed.

Lemma length_append (a b : string) :
  String.length (a +:+ b) = String.length a + String.length b.
Proof.
  induction a as [|x a IH]; [reflexivity|].
  change (S (String.length (a +:+ b)) = S (String.length a + String.length b)).
  now f_equal.
Qed.

Lemma join_length (sep : string) (parts : list string) :
  Forall (fun p => 0 < String.length p) parts ->
  length parts <= String.length (Text.join sep parts).
Proof.
  induction 1 as [|p parts Hp _ IH]; [simpl; lia|].
  destruct parts as [|q parts]; [simpl in *; lia|].
  change (Text.join sep (p :: q :: parts)) with (p +:+ sep +:+ Text.join sep (q :: parts)).
  rewrite !length_append. simpl in *. lia.
Qed.

Lemma dumps_item_length (kv : string * string) : 0 < String.length (PyJson.dumps_item kv).
Proof. unfold PyJson.dumps_item. rewrite length_append. simpl. lia. Qed.

Lemma dumps_item_head (kv : string * string) :
  exists u, PyJson.dumps_item kv = "  " +:+ PyJson.quote +:+ u.
Proof.
  unfold PyJson.dumps_item, PyJson.dumps_str. rewrite !append_assoc. eauto.
Qed.

Lemma members_head (kv : string * string) (items : list (string * string)) :
  exists u, Text.join ("," +:+ PyJson.newline) (map PyJson.dumps_item (kv :: items))
            = "  " +:+ PyJson.quote +:+ u.
Proof.
  destruct (dumps_item_head kv) as [u Hu].
  destruct items as [|kv' items].
  - exists u. exact Hu.
  - change (Text.join ("," +:+ PyJson.newline) (map PyJson.dumps_item (kv :: kv' :: items)))
      with (PyJson.dumps_item kv +:+ ("," +:+ PyJson.newline) +:+
            Text.join ("," +:+ PyJson.newline) (map PyJson.dumps_item (kv' :: items))).
    rewrite Hu, !append_assoc. eauto.
Qed.

(** The reader gives back the members the writer was given. *)
Lemma read_object_dumps (items : list (string * string)) :
  PyJson.read_object (PyJson.dumps_items items) = Some items.
Proof.
  destruct items as [|kv items]; [reflexivity|].
  unfold PyJson.dumps_items, PyJson.read_object.
  pose proof (read_members_dumps items kv) as Hread.
  assert (length items < String.length
            (Text.join ("," +:+ PyJson.newline) (map PyJson.dumps_item (kv :: items)))) as Hlen.
  { apply Nat.lt_le_trans with (length (map PyJson.dumps_item (kv :: items))).
    - rewrite length_map. simpl. lia.
    - apply join_length, Forall_forall. intros p Hp.
      apply list_elem_of_fmap in Hp as (x & -> & _). apply dumps_item_length. }
  destruct (members_head kv items) as [u Hu].
  set (body := Text.join ("," +:+ PyJson.newline) (map PyJson.dumps_item (kv :: items))) in *.
  change (PyJson.expect "{" (PyJson.skip_ws ("{" +:+ PyJson.newline +:+ body +:+ PyJson.newline +:+ "}")))
    with (Some (PyJson.newline +:+ body +:+ PyJson.newline +:+ "}")).
  cbn [mbind option_bind].
  assert (PyJson.skip_ws (PyJson.newline +:+ body +:+ PyJson.newline +:+ "}")
          = PyJson.quote +:+ u +:+ PyJson.newline +:+ "}") as ->.
  { rewrite Hu, !append_assoc. reflexivity. }
  change (PyJson.quote +:+ u +:+ PyJson.newline +:+ "}")
    with (String "034" (u +:+ PyJson.newline +:+ "}")).
  cbn iota. change (Ascii.eqb "034" "}") with false. cbn iota.
  rewrite (Hread _ EmptyString).
  - reflexivity.
  - rewrite !length_append. lia.
Qed.

Lemma of_pairs_to_list (m : gmap string string) : PyJson.of_pairs (map_to_list m) = m.
Proof.
  unfold PyJson.of_pairs.
  rewrite <- (list_to_map_to_list m) at 2.
  apply list_to_map_proper.
  - rewrite fmap_reverse, reverse_Permutation. apply NoDup_fst_map_to_list.
  - apply reverse_Permutation.
Qed.

(** The codec reads back every mapping it writes. *)
Lemma loads_dumps (m : gmap string string) : PyJson.loads (PyJson.dumps m) = Ok m.
Proof.
  unfold PyJson.loads, PyJson.dumps. now rewrite read_object_dumps, of_pairs_to_list.
Qed.

(** With the concrete codec nothing is assumed of the library: an override
    recorded on a writable, readable store is there after a reload. *)
Lemma override_survives_reload (self : OverrideStore) (d : disk) (desc X : string) :
  writable d = true ->
  Path.can_read_back d = true ->
  exists reloaded,
    @OverrideStore.init PyJson.codec (@OverrideStore.set PyJson.codec self desc X d).1.2
    = Ok reloaded /\
    OverrideStore.get reloaded desc = Some X.
Proof.
  intros Hw Hr.
  destruct (@reload_after_set PyJson.codec self d desc X Hw Hr (loads_dumps _)) as [_ Hinit].
  eexists. split; [exact Hinit|]. apply (@get_after_set PyJson.codec).
Qed.

(** C8 (the code departs from it). A backing file whose bytes do not decode
    makes [read_text] raise [UnicodeDecodeError]; the handler of [_load]
    names [JSONDecodeError] and [OSError] only, so constructing the store
    raises instead of starting empty. *)
Theorem init_raises_on_undecodable_file {J : Json} (w : bool) :
  OverrideStore.init
    {| overrides_json := Some {| readable := true; body := Undecodable |}; writable := w |}
  = Raise UnicodeDecodeError.
Proof. reflexivity. Qed.

(** C10. Lower-casing the description never changes the category. *)
Theorem categorise_lower (self : Categoriser) (d : string) :
  Categoriser.categorise self (Text.lower d) = Categoriser.categorise self d.
Proof.
  unfold Categoriser.categorise, OverrideStore.get.
  now rewrite key_lower, lower_idem.
Qed.

(** ** The normalizer *)

Lemma to_numeric_nan (c : cell) : Frame.isna c = true -> Frame.to_numeric c = None.
Proof. destruct c; simpl; congruence. Qed.

(** What one surviving row looks like. *)
Lemma normalise_row_spec (source : string) (r : partial_row) (t : Transaction) :
  normalise_row source r = Some t <->
  exists d a, date_ r = Some d /\ Frame.to_numeric (amount_ r) = Some a /\ unscaled a <> 0%Z /\
    t = {| date := d; description := description_ r; amount := Num.abs a; source_file := source |}.
Proof.
  unfold normalise_row. split.
  - destruct (date_ r) as [d|]; simpl; [|discriminate].
    destruct (Frame.isna (amount_ r)); [discriminate|].
    destruct (Frame.to_numeric (amount_ r)) as [a|]; simpl; [|discriminate].
    unfold Num.gt0; simpl.
    destruct (Z.ltb_spec 0 (Z.abs (unscaled a))); [|discriminate].
    intros [= <-]. exists d, a. repeat split; lia.
  - intros (d & a & -> & Ha & Hnz & ->). simpl.
    destruct (Frame.isna (amount_ r)) eqn:Hna.
    + rewrite (to_numeric_nan _ Hna) in Ha. discriminate.
    + rewrite Ha. simpl. unfold Num.gt0; simpl.
      destruct (Z.ltb_spec 0 (Z.abs (unscaled a))); [reflexivity | lia].
Qed.

Lemma normalise_row_survives (source : string) (r : partial_row) :
  is_Some (normalise_row source r) <-> survives r = true.
Proof.
  unfold survives. split.
  - intros [t Ht]. apply normalise_row_spec in Ht as (d & a & -> & -> & Hnz & _).
    apply negb_true_iff, Z.eqb_neq, Hnz.
  - destruct (date_ r) as [d|] eqn:Hd; [|discriminate].
    destruct (Frame.to_numeric (amount_ r)) as [a|] eqn:Ha; [|discriminate].
    intros Hnz. apply negb_true_iff, Z.eqb_neq in Hnz.
    eexists. apply normalise_row_spec. exists d, a. eauto.
Qed.

Lemma normalise_positive (df : list partial_row) (source : string) :
  Forall positive_amount (_normalise df source).
Proof.
  unfold _normalise. apply Forall_forall. intros t Ht.
  apply list_elem_of_omap in Ht as (r & _ & Hr).
  apply normalise_row_spec in Hr as (d & a & _ & _ & Hnz & ->).
  unfold positive_amount; simpl. lia.
Qed.
(** ** Every recognizer hands its rows to the normalizer *)

Ltac unfold_result := unfold mbind, result_bind, mret, result_ret in *.

(** A recognizer declines at once or goes on with the renamed frame. *)
Ltac claim_first :=
  match goal with
  | |- context [if ?c then (?df, Ok None) else _] => destruct c; simpl; [done|]
  | |- context [if ?c then _ else (?df, Ok None)] => destruct c; simpl; [|done]
  end.

Ltac through_parser :=
  unfold_result;
  repeat (case_match; try done; simplify_eq; cbn beta iota; try done);
  try apply normalise_positive.

Lemma recognizer_positive {D : DateInference} (p : parser) (df_raw : frame) (source : string) :
  In p PARSERS ->
  match (p df_raw source).2 with
  | Ok (Some table) => Forall positive_amount table
  | _ => True
  end.
Proof.
  unfold PARSERS. intros Hp. simpl in Hp.
  destruct Hp as [<-|[<-|[<-|[<-|[<-|[<-|[<-|[]]]]]]]].
  - unfold _parse_amex_detailed. claim_first. through_parser.
  - unfold _parse_monzo. claim_first. through_parser.
  - unfold _parse_starling. claim_first. through_parser.
  - unfold _parse_revolut. claim_first. through_parser.
  - unfold _parse_lloyds. claim_first. through_parser.
  - unfold _parse_hsbc. claim_first. through_parser.
  - unfold _parse_amex. claim_first. through_parser.
Qed.

Lemma generic_positive {D : DateInference} (df_raw : frame) (source : string) :
  match (_parse_generic df_raw source).2 with
  | Ok table => Forall positive_amount table
  | Raise _ => True
  end.
Proof. unfold _parse_generic, pick_column, item. cbn [snd]. through_parser. Qed.

Lemma try_parsers_positive {D : DateInference} (ps : list parser) (df_raw : frame)
    (filename : string) :
  (forall p, In p ps -> In p PARSERS) ->
  match (try_parsers ps df_raw filename).2 with
  | Ok (Some table) => Forall positive_amount table
  | _ => True
  end.
Proof.
  revert df_raw. induction ps as [|p ps IH]; intros df_raw Hps; simpl; [done|].
  pose proof (recognizer_positive p df_raw filename (Hps p (or_introl eq_refl))) as Hp.
  destruct (p df_raw filename) as [df' [[[|t ts]|]|e]]; simpl in *; try done;
    apply IH; intros q Hq; apply Hps; now right.
Qed.

Lemma parse_frame_positive {D : DateInference} (df_raw : frame) (filename : string) :
  match parse_frame df_raw filename with
  | Ok table => Forall positive_amount table
  | Raise _ => True
  end.
Proof.
  unfold parse_frame. destruct (Frame.empty df_raw); [constructor|].
  pose proof (try_parsers_positive PARSERS df_raw filename (fun _ H => H)) as Ht.
  destruct (try_parsers PARSERS df_raw filename) as [df' [[table|]|e]]; simpl in *; try done.
  apply generic_positive.
Qed.

(** C1. Every row [_normalise] returns has a strictly positive amount: it
    is the absolute value of an input amount that reads as a number other
    than zero (a missing, non-numeric or zero amount drops the row).  So has
    every row of a table [parse_statement] returns, whichever recognizer
    produced it. *)
Theorem amount_always_positive {D : DateInference} (df : list partial_row) (source : string)
    (file : upload) (filename : string) :
  Forall positive_amount (_normalise df source) /\
  Forall (fun t => exists r a,
            In r df /\ Frame.to_numeric (amount_ r) = Some a /\ unscaled a <> 0%Z /\
            amount t = Num.abs a)
         (_normalise df source) /\
  match parse_statement file filename with
  | Ok table => Forall positive_amount table
  | Raise _ => True
  end.
Proof.
  split; [apply normalise_positive|]. split.
  - unfold _normalise. apply Forall_forall. intros t Ht.
    apply list_elem_of_omap in Ht as (r & Hin & Hr).
    apply normalise_row_spec in Hr as (d & a & _ & Ha & Hnz & ->).
    exists r, a. repeat split; [now apply list_elem_of_In | exact Ha | exact Hnz].
  - unfold parse_statement.
    match goal with |- context [mbind _ ?r] => destruct r as [df_raw|e] end;
      unfold_result; [|done].
    apply parse_frame_positive.
Qed.

(** C4 (as the code has it). The description is never looked at: the rows
    that survive are those with a date and a non-zero numeric amount, and
    their descriptions come out unchanged, in order. *)
Theorem normalise_keeps_description (df : list partial_row) (source : string) :
  map description (_normalise df source)
  = map description_ (filter (fun r => survives r = true) df).
Proof.
  unfold _normalise. induction df as [|r df IH]; [reflexivity|].
  change (omap (normalise_row source) (r :: df))
    with (match normalise_row source r with
          | Some t => t :: omap (normalise_row source) df
          | None => omap (normalise_row source) df
          end).
  rewrite filter_cons.
  destruct (normalise_row source r) as [t|] eqn:Hr.
  - assert (survives r = true) as Hs by (apply (normalise_row_survives source); eauto).
    rewrite decide_True by exact Hs. simpl. rewrite IH. f_equal.
    apply normalise_row_spec in Hr as (d & a & _ & _ & _ & ->). reflexivity.
  - assert (survives r <> true) as Hs.
    { intros Hs. apply (normalise_row_survives source) in Hs as [t Ht]. congruence. }
    rewrite decide_False by exact Hs. exact IH.
Qed.

(** C4, the claim as stated fails: a row with an empty description and a
    positive amount passes through [_normalise]. *)
Lemma normalise_keeps_empty_description :
  _normalise
    [{| date_ := Some {| year := 2026; month := 1; day := 28 |};
        description_ := CText EmptyString;
        amount_ := CNum (Dec 453 1) |}] "jan.csv"
  = [{| date := {| year := 2026; month := 1; day := 28 |};
        description := CText EmptyString;
        amount := Dec 453 1;
        source_file := "jan.csv" |}].
Proof. reflexivity. Qed.

(** ** End to end *)

(** C9. The statement with header Date,Description,Amount and the rows
    28/01/2026,TESCO STORES,45.30 and 27/01/2026,UBER *TRIP,-5.00 gives one
    transaction: 2026-01-28, TESCO STORES, 45.30.  The file is read as CSV,
    that is, its name does not end in .xlsx or .xls. *)
Theorem tesco_statement {D : DateInference} (w : result frame) (filename : string) :
  Text.endswith ".xlsx" (Text.lower filename) = false ->
  Text.endswith ".xls" (Text.lower filename) = false ->
  parse_statement {| decoded := tesco_csv; workbook := w |} filename
  = Ok [{| date := {| year := 2026; month := 1; day := 28 |};
           description := CText "TESCO STORES";
           amount := Dec 453 1;
           source_file := filename |}].
Proof.
  intros Hx Hs. unfold parse_statement. rewrite Hx, Hs.
  vm_compute. reflexivity.
Qed.

Lemma tesco_statement_witness :
  @parse_statement no_inference (csv_file tesco_csv) "statement.csv"
  = Ok [tesco_row "statement.csv"].
Proof.
  exact (@tesco_statement no_inference (Raise ValueError) "statement.csv" eq_refl eq_refl).
Defined.

(** ** Several files *)

Lemma parse_each_all_ok {D : DateInference} (files : list (upload * string))
    (tables : list (list Transaction)) :
  Forall2 (fun f t => parse_statement f.1 f.2 = Ok t) files tables ->
  parse_each files = Ok tables.
Proof.
  induction 1 as [|[fobj fname] t files tables Hf _ IH]; [reflexivity|].
  simpl in *. rewrite Hf. unfold_result. now rewrite IH.
Qed.

Lemma parse_each_first_failure {D : DateInference} (before after : list (upload * string))
    (f : upload * string) (e : exn) :
  Forall (fun g => exists t, parse_statement g.1 g.2 = Ok t) before ->
  parse_statement f.1 f.2 = Raise e ->
  parse_each (before ++ f :: after) = Raise e.
Proof.
  intros Hb Hf. induction Hb as [|[gobj gname] before [t Ht] _ IH]; simpl.
  - destruct f as [fobj fname]. simpl in Hf. now rewrite Hf.
  - simpl in Ht. rewrite Ht. unfold_result. now rewrite IH.
Qed.

(** C5 (as the code has it). [parse_multiple] parses the files in order and
    concatenates the tables when every file parses; the first file whose
    parse raises ends the batch with that exception, whatever follows it. *)
Theorem parse_multiple_all_or_nothing {D : DateInference} (files : list (upload * string)) :
  (forall tables,
     Forall2 (fun f t => parse_statement f.1 f.2 = Ok t) files tables ->
     parse_multiple files = Ok (concat tables)) /\
  (forall before f after e,
     files = before ++ f :: after ->
     Forall (fun g => exists t, parse_statement g.1 g.2 = Ok t) before ->
     parse_statement f.1 f.2 = Raise e ->
     parse_multiple files = Raise e).
Proof.
  split.
  - intros tables H. unfold parse_multiple. now rewrite (parse_each_all_ok _ _ H).
  - intros before f after e -> Hb Hf. unfold parse_multiple.
    now rewrite (parse_each_first_failure before after f e Hb Hf).
Qed.

Lemma parse_multiple_all_or_nothing_witness :
  @parse_multiple no_inference
    [(csv_file tesco_csv, "jan.csv"); (csv_file tesco_csv, "feb.csv")]
  = Ok [tesco_row "jan.csv"; tesco_row "feb.csv"] /\
  @parse_multiple no_inference
    [(csv_file tesco_csv, "jan.csv"); (csv_file orphan_monzo_csv, "monzo.csv");
     (csv_file tesco_csv, "feb.csv")]
  = Raise (KeyError "date").
Proof.
  split.
  - apply (proj1 (@parse_multiple_all_or_nothing no_inference _)
             [[tesco_row "jan.csv"]; [tesco_row "feb.csv"]]).
    repeat constructor.
  - apply (proj2 (@parse_multiple_all_or_nothing no_inference _)
             [(csv_file tesco_csv, "jan.csv")] (csv_file orphan_monzo_csv, "monzo.csv")
             [(csv_file tesco_csv, "feb.csv")]).
    + reflexivity.
    + repeat constructor. exists [tesco_row "jan.csv"]. reflexivity.
    + reflexivity.
Defined.

(** C5, the claim as stated fails: the second file parses on its own, but
    behind a workbook that cannot be decoded, or behind a CSV export whose
    recognizer raises, the batch returns no table at all. *)
Lemma batch_stops_at_failing_file :
  @parse_statement no_inference (csv_file tesco_csv) "jan.csv" = Ok [tesco_row "jan.csv"] /\
  @parse_multiple no_inference
    [(broken_workbook, "broken.xlsx"); (csv_file tesco_csv, "jan.csv")]
  = Raise ValueError /\
  @parse_multiple no_inference
    [(csv_file orphan_monzo_csv, "monzo.csv"); (csv_file tesco_csv, "jan.csv")]
  = Raise (KeyError "date").
Proof. repeat split; vm_compute; reflexivity. Qed.

(** ** Dates *)

Lemma series_Forall2 (fmt : list directive) (cs : list cell)
    (ds : list (option calendar_date)) :
  Strptime.series fmt cs = Some ds <->
  Forall2 (fun c d => Strptime.element fmt c = Some d) cs ds.
Proof.
  revert ds. induction cs as [|c cs IH]; intros ds; simpl.
  - split; [intros [= <-]; constructor | inversion 1; reflexivity].
  - destruct (Strptime.element fmt c) as [d|] eqn:Hc.
    + destruct (Strptime.series fmt cs) as [ds'|].
      * split.
        -- intros [= <-]. constructor; [exact Hc | now apply IH].
        -- inversion 1 as [|? d' ? ds'' Hd Hrest]; subst.
           apply IH in Hrest. congruence.
      * split; [discriminate|].
        inversion 1 as [|? d' ? ds'' Hd Hrest]; subst.
        apply IH in Hrest. discriminate.
    + split; [discriminate|]. inversion 1; congruence.
Qed.

Lemma series_fails_on (fmt : list directive) (cs : list cell) (c : cell) :
  In c cs -> Strptime.element fmt c = None -> Strptime.series fmt cs = None.
Proof.
  induction cs as [|c' cs IH]; simpl; [tauto|].
  intros [->|Hin] Hc.
  - now rewrite Hc.
  - rewrite (IH Hin Hc). now destruct (Strptime.element fmt c').
Qed.

Lemma series_reads (fmt : list directive) (cs : list cell) (ds : list (option calendar_date))
    (c : cell) (d : option calendar_date) :
  Strptime.series fmt cs = Some ds ->
  Strptime.element fmt c = Some d ->
  Forall2 (fun c' d' => c' = c -> d' = d) cs ds.
Proof.
  intros Hs Hc. apply series_Forall2 in Hs.
  induction Hs as [|c' d' cs ds Hcd _ IH]; constructor; [|exact IH].
  intros ->. congruence.
Qed.

(** C7 (as the code has it). For a batch that contains 01/02/2026: when
    every element reads as day/month/year the batch is parsed that way and
    the string is 1 February 2026; when some element does not, the only
    other fixed format that reads the string is month/day/year, and a batch
    it reads in full makes the string 2 January 2026; otherwise the batch
    goes to the inferring call.  In each case one format serves the whole
    batch. *)
Theorem to_date_day_first_unless_us {D : DateInference} (batch : list cell) :
  In (CText "01/02/2026") batch ->
  (forall ds, Strptime.series fmt_dmY_slash batch = Some ds ->
     _to_date batch = Ok ds /\
     Forall2 (fun c d => c = CText "01/02/2026" -> d = Some feb_1_2026) batch ds) /\
  (Strptime.series fmt_dmY_slash batch = None ->
   forall ds, Strptime.series fmt_mdY_slash batch = Some ds ->
     _to_date batch = Ok ds /\
     Forall2 (fun c d => c = CText "01/02/2026" -> d = Some jan_2_2026) batch ds) /\
  (Strptime.series fmt_dmY_slash batch = None ->
   Strptime.series fmt_mdY_slash batch = None ->
   _to_date batch = to_datetime_mixed batch).
Proof.
  intros Hin.
  assert (Strptime.series fmt_dmY_dash batch = None) as H2
    by (apply (series_fails_on _ _ _ Hin); reflexivity).
  assert (Strptime.series fmt_Ymd_dash batch = None) as H3
    by (apply (series_fails_on _ _ _ Hin); reflexivity).
  assert (Strptime.series fmt_dbY batch = None) as H4
    by (apply (series_fails_on _ _ _ Hin); reflexivity).
  assert (Strptime.series fmt_dmy_slash batch = None) as H5
    by (apply (series_fails_on _ _ _ Hin); reflexivity).
  unfold _to_date, date_formats, first_format.
  split; [|split].
  - intros ds H1. split.
    + now rewrite H1.
    + apply (series_reads _ _ _ _ _ H1). reflexivity.
  - intros H1 ds H6. split.
    + now rewrite H1, H2, H3, H4, H5, H6.
    + apply (series_reads _ _ _ _ _ H6). reflexivity.
  - intros H1 H6. now rewrite H1, H2, H3, H4, H5, H6.
Qed.

Lemma to_date_day_first_unless_us_witness :
  @_to_date no_inference [CText "01/02/2026"; CNaN; CText "28/01/2026"]
  = Ok [Some feb_1_2026; None; Some {| year := 2026; month := 1; day := 28 |}].
Proof.
  destruct (@to_date_day_first_unless_us no_inference
              [CText "01/02/2026"; CNaN; CText "28/01/2026"] (or_introl eq_refl))
    as [Hfirst _].
  apply (Hfirst _ eq_refl).
Defined.

(** C7, the claim as stated fails: next to a date that only reads as
    month/day/year, 01/02/2026 comes out as 2 January 2026. *)
Lemma to_date_reads_second_of_january :
  @_to_date no_inference [CText "01/02/2026"; CText "02/13/2026"]
  = Ok [Some jan_2_2026; Some feb_13_2026].
Proof. reflexivity. Qed.

(** ** Amount text *)










(** ** Column labels and the shared frame *)

Lemma is_space_lower (c : ascii) : Text.is_space (Text.lower_char c) = Text.is_space c.
Proof. destruct c as [[] [] [] [] [] [] [] []]; reflexivity. Qed.

Lemma lower_lstrip (s : string) : Text.lower (Text.lstrip s) = Text.lstrip (Text.lower s).
Proof.
  induction s as [|c s IH]; simpl; [reflexivity|].
  rewrite is_space_lower. now destruct (Text.is_space c).
Qed.

Lemma lower_rstrip (s : string) : Text.lower (Text.rstrip s) = Text.rstrip (Text.lower s).
Proof.
  induction s as [|c s IH]; simpl; [reflexivity|].
  rewrite <- IH, is_space_lower.
  destruct (Text.rstrip s); simpl; [|reflexivity].
  now destruct (Text.is_space c).
Qed.

Lemma lstrip_idem (s : string) : Text.lstrip (Text.lstrip s) = Text.lstrip s.
Proof.
  induction s as [|c s IH]; simpl; [reflexivity|].
  destruct (Text.is_space c) eqn:Hc; [exact IH|]. simpl. now rewrite Hc.
Qed.

Lemma rstrip_idem (s : string) : Text.rstrip (Text.rstrip s) = Text.rstrip s.
Proof.
  induction s as [|c s IH]; simpl; [reflexivity|].
  destruct (Text.rstrip s) as [|a r] eqn:Hr.
  - destruct (Text.is_space c) eqn:Hc; simpl; [reflexivity|]. now rewrite Hc.
  - change (Text.rstrip (String c (String a r)))
      with (match Text.rstrip (String a r) with
            | EmptyString => if Text.is_space c then EmptyString else String c EmptyString
            | r' => String c r'
            end).
    now rewrite IH.
Qed.

(** Trimming the right end leaves a trimmed left end alone. *)
Lemma lstrip_rstrip_lstrip (s : string) :
  Text.lstrip (Text.rstrip (Text.lstrip s)) = Text.rstrip (Text.lstrip s).
Proof.
  induction s as [|c s IH]; simpl; [reflexivity|].
  destruct (Text.is_space c) eqn:Hc; [exact IH|].
  simpl. destruct (Text.rstrip s); rewrite ?Hc; simpl; now rewrite Hc.
Qed.

Lemma strip_idem (s : string) : Text.strip (Text.strip s) = Text.strip s.
Proof. unfold Text.strip. now rewrite lstrip_rstrip_lstrip, rstrip_idem. Qed.

Lemma label_idem (c : string) :
  Text.strip (Text.lower (Text.strip (Text.lower c))) = Text.strip (Text.lower c).
Proof.
  unfold Text.strip at 2. rewrite lower_rstrip, lower_lstrip, lower_idem.
  apply strip_idem.
Qed.

Lemma lowered_renamed (df : frame) : Frame.lowered (renamed df) = Frame.lowered df.
Proof.
  unfold renamed, Frame.lowered, Frame.set_columns; simpl.
  rewrite map_map. apply map_ext. intros c. apply label_idem.
Qed.

Lemma renamed_idem (df : frame) : renamed (renamed df) = renamed df.
Proof. unfold renamed at 1. rewrite lowered_renamed. reflexivity. Qed.

(** A recognizer leaves the frame as it found it or renamed, and gives the
    same answer on either. *)
Lemma recognizer_renamed {D : DateInference} (p : parser) (df : frame) (filename : string) :
  In p PARSERS ->
  ((p (renamed df) filename).2 = (p df filename).2 /\
   (p (renamed df) filename).1 = renamed df) /\
  ((p df filename).1 = df \/ (p df filename).1 = renamed df).
Proof.
  unfold PARSERS. intros Hp. simpl in Hp.
  destruct Hp as [<-|[<-|[<-|[<-|[<-|[<-|[<-|[]]]]]]]].
  - unfold _parse_amex_detailed. rewrite lowered_renamed.
    destruct (negb _ || _ || _); repeat split; auto.
  - unfold _parse_monzo. rewrite lowered_renamed.
    destruct (negb _); repeat split; auto.
  - unfold _parse_starling. rewrite lowered_renamed.
    destruct (negb _ && _); repeat split; auto.
  - unfold _parse_revolut. rewrite lowered_renamed.
    destruct (negb _ && _); repeat split; auto.
  - unfold _parse_lloyds. rewrite lowered_renamed.
    destruct (negb _ || _); repeat split; auto.
  - unfold _parse_hsbc. rewrite lowered_renamed.
    destruct (negb _ || _); repeat split; auto.
  - unfold _parse_amex. rewrite lowered_renamed.
    destruct (_ && _ && _); repeat split; auto.
Qed.

Lemma generic_renamed {D : DateInference} (df : frame) (filename : string) :
  (_parse_generic (renamed df) filename).2 = (_parse_generic df filename).2.
Proof. unfold _parse_generic. rewrite lowered_renamed. reflexivity. Qed.

(** ** Detection order *)

(** The frame the loop holds is the uploaded one or its renaming. *)
Lemma recognizer_on_current {D : DateInference} (p : parser) (df cur : frame)
    (filename : string) :
  In p PARSERS -> cur = df \/ cur = renamed df ->
  (p cur filename).2 = (p df filename).2 /\
  ((p cur filename).1 = df \/ (p cur filename).1 = renamed df).
Proof.
  intros Hp [->| ->].
  - split; [reflexivity|]. apply (recognizer_renamed p df filename Hp).
  - destruct (recognizer_renamed p df filename Hp) as [[Hres Hfr] _].
    split; [exact Hres|]. right. exact Hfr.
Qed.





(* ===================================================================== *)
(** * Further properties of the code *)
(* ===================================================================== *)

(** ** The override store *)

Lemma save_when_unwritable {J : Json} (self : OverrideStore) (d : disk) :
  writable d = false -> OverrideStore._save self d = (d, Raise OSError).
Proof. intros Hw. unfold OverrideStore._save, Path.write_text. now rewrite Hw. Qed.

(** X1. [set] and [remove] change the answer of [get] for the descriptions
    with the same key (lower-cased, trimmed) and for no other, whether or
    not the save that follows succeeds. *)
Theorem set_remove_touch_one_key {J : Json} (self : OverrideStore) (d : disk)
    (desc category other : string) :
  OverrideStore.get (OverrideStore.set self desc category d).1.1 other
  = (if decide (OverrideStore.key other = OverrideStore.key desc)
     then Some category else OverrideStore.get self other) /\
  OverrideStore.get (OverrideStore.remove self desc d).1.1 other
  = (if decide (OverrideStore.key other = OverrideStore.key desc)
     then None else OverrideStore.get self other).
Proof.
  split.
  - unfold OverrideStore.set, OverrideStore.get.
    destruct (OverrideStore._save _ d) as [d' r]; simpl.
    case_decide as Hk.
    + rewrite Hk. apply lookup_insert_eq.
    + apply lookup_insert_ne. congruence.
  - unfold OverrideStore.remove, OverrideStore.get.
    destruct (_data self !! OverrideStore.key desc) as [v|] eqn:Hv.
    + destruct (OverrideStore._save _ d) as [d' r]; simpl.
      case_decide as Hk.
      * rewrite Hk. apply lookup_delete_eq.
      * apply lookup_delete_ne. congruence.
    + simpl. case_decide as Hk; [now rewrite Hk | reflexivity].
Qed.

(** X2. Removing a description that has no override changes nothing and
    writes nothing: the call succeeds even where the file cannot be
    written. *)
Theorem remove_absent_is_silent {J : Json} (self : OverrideStore) (d : disk) (desc : string) :
  OverrideStore.get self desc = None ->
  OverrideStore.remove self desc d = (self, d, Ok tt).
Proof. unfold OverrideStore.remove, OverrideStore.get. now intros ->. Qed.

Lemma remove_absent_is_silent_witness :
  @OverrideStore.remove PyJson.codec {| _data := ∅ |} "UBER TRIP"
    {| overrides_json := None; writable := false |}
  = ({| _data := ∅ |}, {| overrides_json := None; writable := false |}, Ok tt).
Proof. apply (@remove_absent_is_silent PyJson.codec). reflexivity. Defined.

(** X3. Where the file cannot be written, [set] raises [OSError] and leaves
    the file as it was, but the object already holds the new override:
    nothing is rolled back. *)
Theorem set_unwritable_keeps_memory {J : Json} (self : OverrideStore) (d : disk)
    (desc category : string) :
  writable d = false ->
  let out := OverrideStore.set self desc category d in
  out.2 = Raise OSError /\ out.1.2 = d /\
  OverrideStore.get out.1.1 desc = Some category.
Proof.
  intros Hw out. subst out. unfold OverrideStore.set.
  rewrite (save_when_unwritable _ d Hw). simpl. repeat split.
  unfold OverrideStore.get; simpl. apply lookup_insert_eq.
Qed.

Lemma set_unwritable_keeps_memory_witness :
  let d := {| overrides_json := None; writable := false |} in
  let out := @OverrideStore.set PyJson.codec {| _data := ∅ |} "UBER TRIP" "Business" d in
  out.2 = Raise OSError /\ out.1.2 = d /\
  OverrideStore.get out.1.1 "UBER TRIP" = Some "Business".
Proof.
  apply (@set_unwritable_keeps_memory PyJson.codec {| _data := ∅ |}
           {| overrides_json := None; writable := false |}). reflexivity.
Defined.

Lemma save_then_init {J : Json} (self : OverrideStore) (d : disk) :
  json_loads (json_dumps (_data self)) = Ok (_data self) ->
  writable d = true ->
  Path.can_read_back d = true ->
  exists d', OverrideStore._save self d = (d', Ok tt) /\ in_sync self d' /\
             writable d' = true /\ Path.can_read_back d' = true.
Proof.
  intros Hrt Hw Hr.
  destruct (save_when_writable self d Hw) as (rd & Hsave & Hrd).
  assert (rd = true) as -> by (rewrite Hrd; exact Hr).
  eexists. split; [exact Hsave|]. repeat split.
  unfold in_sync, OverrideStore.init, OverrideStore._load, Path.exists_, Path.read_text; simpl.
  rewrite Hrt. now destruct self.
Qed.

Lemma call_keeps_sync {J : Json} (call : store_call) (self : OverrideStore) (d : disk) :
  (forall m, json_loads (json_dumps m) = Ok m) ->
  writable d = true -> Path.can_read_back d = true -> in_sync self d ->
  let out := match call with
             | CallSet description category => OverrideStore.set self description category d
             | CallRemove description => OverrideStore.remove self description d
             end in
  out.2 = Ok tt /\ in_sync out.1.1 out.1.2 /\
  writable out.1.2 = true /\ Path.can_read_back out.1.2 = true.
Proof.
  intros Hrt Hw Hr Hsync. destruct call as [desc cat|desc]; simpl.
  - unfold OverrideStore.set.
    destruct (save_then_init {| _data := <[OverrideStore.key desc := cat]> (_data self) |} d
                (Hrt _) Hw Hr) as (d' & -> & H). simpl. tauto.
  - unfold OverrideStore.remove.
    destruct (_data self !! OverrideStore.key desc); [|simpl; tauto].
    destruct (save_then_init {| _data := delete (OverrideStore.key desc) (_data self) |} d
                (Hrt _) Hw Hr) as (d' & -> & H). simpl. tauto.
Qed.

(** X4. Write-through: on a file that can be written and read, with a codec
    that reads back what it writes, any sequence of [set] and [remove]
    calls succeeds and leaves the file in step with the object: a store
    constructed from the file afterwards holds the same mapping. *)
Theorem calls_keep_file_in_sync {J : Json} (calls : list store_call) (self : OverrideStore)
    (d : disk) :
  (forall m, json_loads (json_dumps m) = Ok m) ->
  writable d = true -> Path.can_read_back d = true -> in_sync self d ->
  let out := run_calls calls self d in
  in_sync out.1.1 out.1.2 /\ Forall (fun r => r = Ok tt) out.2.
Proof.
  intros Hrt. revert self d. induction calls as [|call calls IH]; intros self d Hw Hr Hsync.
  - simpl. split; [exact Hsync | constructor].
  - cbn [run_calls].
    destruct (call_keeps_sync call self d Hrt Hw Hr Hsync) as (Hok & Hs & Hw' & Hr').
    destruct (match call with
              | CallSet description category => OverrideStore.set self description category d
              | CallRemove description => OverrideStore.remove self description d
              end) as [[self' d'] r]. simpl in *.
    specialize (IH self' d' Hw' Hr' Hs).
    destruct (run_calls calls self' d') as [[self'' d''] rs]. simpl in *.
    destruct IH as [IH1 IH2]. split; [exact IH1|]. constructor; assumption.
Qed.

Lemma calls_keep_file_in_sync_witness :
  let out := @run_calls PyJson.codec
               [CallSet "UBER TRIP" "Business"; CallRemove "tesco"; CallSet "Tesco " "Food";
                CallRemove " uber trip"]
               {| _data := ∅ |} fresh_disk in
  @in_sync PyJson.codec out.1.1 out.1.2 /\ Forall (fun r => r = Ok tt) out.2.
Proof.
  apply (@calls_keep_file_in_sync PyJson.codec).
  - exact loads_dumps.
  - reflexivity.
  - reflexivity.
  - reflexivity.
Defined.

(** ** Keys of the override store *)

Lemma lower_append (a b : string) : Text.lower (a +:+ b) = Text.lower a +:+ Text.lower b.
Proof.
  induction a as [|c a IH]; [reflexivity|].
  change (String (Text.lower_char c) (Text.lower (a +:+ b))
          = String (Text.lower_char c) (Text.lower a +:+ Text.lower b)).
  now rewrite IH.
Qed.

Lemma all_space_lower (s : string) : all_space (Text.lower s) = all_space s.
Proof.
  induction s as [|c s IH]; simpl; [reflexivity|]. now rewrite is_space_lower, IH.
Qed.

Lemma lstrip_all_space (s : string) : all_space s = true -> Text.lstrip s = EmptyString.
Proof.
  induction s as [|c s IH]; simpl; [reflexivity|].
  intros [Hc Hs]%andb_true_iff. rewrite Hc. auto.
Qed.

Lemma rstrip_all_space (s : string) : all_space s = true -> Text.rstrip s = EmptyString.
Proof.
  induction s as [|c s IH]; simpl; [reflexivity|].
  intros [Hc Hs]%andb_true_iff. now rewrite (IH Hs), Hc.
Qed.

Lemma lstrip_pad_left (pre s : string) :
  all_space pre = true -> Text.lstrip (pre +:+ s) = Text.lstrip s.
Proof.
  induction pre as [|c pre IH]; [reflexivity|]. simpl.
  intros [Hc Hp]%andb_true_iff.
  change (Text.lstrip (String c (pre +:+ s)) = Text.lstrip s). simpl. rewrite Hc. auto.
Qed.

Lemma rstrip_pad_right (s post : string) :
  all_space post = true -> Text.rstrip (s +:+ post) = Text.rstrip s.
Proof.
  intros Hp. induction s as [|c s IH].
  - change (Text.rstrip post = EmptyString). now apply rstrip_all_space.
  - change (Text.rstrip (String c (s +:+ post)) = Text.rstrip (String c s)).
    simpl. now rewrite IH.
Qed.

Lemma strip_pad_right (s post : string) :
  all_space post = true -> Text.strip (s +:+ post) = Text.strip s.
Proof.
  intros Hp. unfold Text.strip. induction s as [|c s IH].
  - change (Text.rstrip (Text.lstrip post) = EmptyString).
    now rewrite (lstrip_all_space _ Hp).
  - change (Text.rstrip (Text.lstrip (String c (s +:+ post)))
            = Text.rstrip (Text.lstrip (String c s))).
    simpl. destruct (Text.is_space c); [exact IH|].
    change (String c (s +:+ post)) with (String c s +:+ post).
    now apply rstrip_pad_right.
Qed.

Lemma key_padded (pre variant desc post : string) :
  all_space pre = true -> all_space post = true ->
  Text.lower variant = Text.lower desc ->
  OverrideStore.key (pre +:+ variant +:+ post) = OverrideStore.key desc.
Proof.
  intros Hpre Hpost Hcase. unfold OverrideStore.key.
  rewrite !lower_append, Hcase.
  unfold Text.strip at 1. rewrite lstrip_pad_left by now rewrite all_space_lower.
  fold (Text.strip (Text.lower desc +:+ Text.lower post)).
  apply strip_pad_right. now rewrite all_space_lower.
Qed.

(** X5. An override is keyed by the lower-cased, trimmed description: after
    [recategorise(desc, X)], every description that differs from [desc] only
    in letter case, with any white space before and after it, is categorised
    as [X] too. *)
Theorem override_ignores_case_and_padding {J : Json} (self : Categoriser) (d : disk)
    (desc X variant pre post : string) :
  Text.lower variant = Text.lower desc ->
  all_space pre = true -> all_space post = true ->
  Categoriser.categorise (Categoriser.recategorise self desc X d).1.1
    (pre +:+ variant +:+ post) = X.
Proof.
  intros Hcase Hpre Hpost. unfold Categoriser.recategorise.
  pose proof (get_after_set (overrides self) desc X d) as Hget.
  destruct (OverrideStore.set (overrides self) desc X d) as [[st d'] r]. simpl in *.
  unfold Categoriser.categorise, OverrideStore.get in *. simpl.
  rewrite (key_padded pre variant desc post Hpre Hpost Hcase), Hget. reflexivity.
Qed.

Lemma override_ignores_case_and_padding_witness :
  Categoriser.categorise
    (@Categoriser.recategorise PyJson.codec demo_categoriser "Uber Trip London" "Business"
       fresh_disk).1.1
    ("  " +:+ "UBER trip LONDON" +:+ " ") = "Business".
Proof.
  apply (@override_ignores_case_and_padding PyJson.codec); reflexivity.
Defined.

(** ** The keyword rules *)

Lemma any_keyword_hits (keywords : list string) (description : string) :
  Categoriser.any_keyword keywords (Text.lower description) = true <-> hits keywords description.
Proof.
  unfold Categoriser.any_keyword, hits. rewrite existsb_exists. reflexivity.
Qed.

Lemma scan_first_hit (pre post : list (string * list string)) (c : string)
    (keywords : list string) (description : string) :
  Forall (fun r => ~ hits r.2 description) pre ->
  hits keywords description ->
  Categoriser.scan (pre ++ (c, keywords) :: post) (Text.lower description) = Some c.
Proof.
  intros Hpre Hhit. induction Hpre as [|[c' kws'] pre Hno _ IH]; simpl.
  - apply any_keyword_hits in Hhit. now rewrite Hhit.
  - destruct (Categoriser.any_keyword kws' (Text.lower description)) eqn:Hk; [|exact IH].
    apply any_keyword_hits in Hk. contradiction.
Qed.

Lemma scan_no_hit (rs : list (string * list string)) (description : string) :
  Forall (fun r => ~ hits r.2 description) rs ->
  Categoriser.scan rs (Text.lower description) = None.
Proof.
  induction 1 as [|[c kws] rs Hno _ IH]; simpl; [reflexivity|].
  destruct (Categoriser.any_keyword kws (Text.lower description)) eqn:Hk; [|exact IH].
  apply any_keyword_hits in Hk. contradiction.
Qed.

Lemma scan_in_rules (rs : list (string * list string)) (desc_lower c : string) :
  Categoriser.scan rs desc_lower = Some c -> In c (map fst rs).
Proof.
  induction rs as [|[c' kws] rs IH]; simpl; [discriminate|].
  destruct (Categoriser.any_keyword kws desc_lower); [intros [= ->]; now left | auto].
Qed.

(** X6. Without an override, the category is that of the first rule, in the
    configured order, one of whose keywords occurs in the lower-cased
    description, later rules that match as well notwithstanding; when no
    rule matches it is the uncategorised label. *)
Theorem first_matching_rule_wins (self : Categoriser) (description : string) :
  OverrideStore.get (overrides self) description = None ->
  (forall pre c keywords post,
     rules (config self) = pre ++ (c, keywords) :: post ->
     Forall (fun r => ~ hits r.2 description) pre ->
     hits keywords description ->
     Categoriser.categorise self description = c) /\
  (Forall (fun r => ~ hits r.2 description) (rules (config self)) ->
   Categoriser.categorise self description = uncategorised_label (config self)).
Proof.
  intros Hget. unfold Categoriser.categorise. rewrite Hget. split.
  - intros pre c keywords post -> Hpre Hhit. now rewrite (scan_first_hit pre post c keywords).
  - intros Hno. now rewrite (scan_no_hit _ _ Hno).
Qed.

Lemma first_matching_rule_wins_witness :
  Categoriser.categorise overlapping_rules "UBER EATS LONDON" = "Transport".
Proof.
  refine (proj1 (first_matching_rule_wins overlapping_rules "UBER EATS LONDON" eq_refl)
            [] "Transport" ["uber"; "tfl"] [("Food", ["eats"; "tesco"])] eq_refl _ _).
  - constructor.
  - exists "uber". split; [now left | reflexivity].
Defined.

(** X7. [categorise] answers with the stored override when there is one,
    and otherwise with one of [all_categories()]: a configured category or
    the uncategorised label. *)
Theorem categorise_range (self : Categoriser) (description : string) :
  match OverrideStore.get (overrides self) description with
  | Some override => Categoriser.categorise self description = override
  | None => In (Categoriser.categorise self description) (Categoriser.all_categories self)
  end.
Proof.
  unfold Categoriser.categorise, Categoriser.all_categories.
  destruct (OverrideStore.get (overrides self) description); [reflexivity|].
  apply in_or_app.
  destruct (Categoriser.scan _ _) as [c|] eqn:Hs.
  - left. now apply scan_in_rules in Hs.
  - right. now left.
Qed.

Lemma contains_empty (s : string) : Text.contains EmptyString s = true.
Proof. destruct s; reflexivity. Qed.

(** X8. An empty keyword occurs in every description: a rule that lists one
    takes every description no earlier rule and no override has taken, so
    that no later rule and not the uncategorised label is ever reached. *)
Theorem empty_keyword_catches_all (self : Categoriser) (description : string)
    (pre post : list (string * list string)) (c : string) (keywords : list string) :
  OverrideStore.get (overrides self) description = None ->
  rules (config self) = pre ++ (c, keywords) :: post ->
  In EmptyString keywords ->
  Forall (fun r => ~ hits r.2 description) pre ->
  Categoriser.categorise self description = c.
Proof.
  intros Hget Hrules Hin Hpre. unfold Categoriser.categorise. rewrite Hget, Hrules.
  rewrite (scan_first_hit pre post c keywords); [reflexivity | exact Hpre |].
  exists EmptyString. split; [exact Hin | apply contains_empty].
Qed.

Lemma empty_keyword_catches_all_witness :
  Categoriser.categorise catch_all_rules "TESCO STORES" = "Misc".
Proof.
  refine (empty_keyword_catches_all catch_all_rules "TESCO STORES" [("Transport", ["uber"])]
            [("Food", ["tesco"])] "Misc" ["fee"; EmptyString] eq_refl eq_refl _ _).
  - right. now left.
  - constructor; [|constructor]. intros (kw & [<-|[]] & Hkw). discriminate.
Defined.

(** ** Where the rows of a table come from *)

Lemma normalise_source (df : list partial_row) (source : string) :
  Forall (fun t => source_file t = source) (_normalise df source).
Proof.
  unfold _normalise. apply Forall_forall. intros t Ht.
  apply list_elem_of_omap in Ht as (r & _ & Hr).
  apply normalise_row_spec in Hr as (d & a & _ & _ & _ & ->). reflexivity.
Qed.

(** A table comes out of the normalizer, whichever parser made it. *)
Ltac into_normalise :=
  unfold_result;
  repeat (case_match; try done; simplify_eq; cbn beta iota; try done);
  try (intros [= <-]; eexists; reflexivity).

Lemma recognizer_normalised {D : DateInference} (p : parser) (df_raw : frame) (source : string)
    (table : list Transaction) :
  In p PARSERS -> (p df_raw source).2 = Ok (Some table) ->
  exists df, table = _normalise df source.
Proof.
  unfold PARSERS. intros Hp. simpl in Hp.
  destruct Hp as [<-|[<-|[<-|[<-|[<-|[<-|[<-|[]]]]]]]].
  - unfold _parse_amex_detailed. claim_first. into_normalise.
  - unfold _parse_monzo. claim_first. into_normalise.
  - unfold _parse_starling. claim_first. into_normalise.
  - unfold _parse_revolut. claim_first. into_normalise.
  - unfold _parse_lloyds. claim_first. into_normalise.
  - unfold _parse_hsbc. claim_first. into_normalise.
  - unfold _parse_amex. claim_first. into_normalise.
Qed.

Lemma generic_normalised {D : DateInference} (df_raw : frame) (source : string)
    (table : list Transaction) :
  (_parse_generic df_raw source).2 = Ok table -> exists df, table = _normalise df source.
Proof. unfold _parse_generic, pick_column, item. cbn [snd]. into_normalise. Qed.

Lemma try_parsers_normalised {D : DateInference} (ps : list parser) (df_raw : frame)
    (filename : string) (table : list Transaction) :
  (forall p, In p ps -> In p PARSERS) ->
  (try_parsers ps df_raw filename).2 = Ok (Some table) ->
  exists df, table = _normalise df filename.
Proof.
  revert df_raw. induction ps as [|p ps IH]; intros df_raw Hps; simpl; [done|].
  pose proof (recognizer_normalised p df_raw filename) as Hp.
  specialize (fun t => Hp t (Hps p (or_introl eq_refl))).
  assert (forall q, In q ps -> In q PARSERS) as Hps' by (intros q Hq; apply Hps; now right).
  destruct (p df_raw filename) as [df' [[[|t ts]|]|e]]; simpl in *; try done; eauto.
Qed.

Lemma parse_frame_normalised {D : DateInference} (df_raw : frame) (filename : string)
    (table : list Transaction) :
  parse_frame df_raw filename = Ok table -> exists df, table = _normalise df filename.
Proof.
  unfold parse_frame. destruct (Frame.empty df_raw).
  - intros [= <-]. now exists [].
  - pose proof (try_parsers_normalised PARSERS df_raw filename) as Ht.
    specialize (fun t => Ht t (fun _ H => H)).
    destruct (try_parsers PARSERS df_raw filename) as [df' [[t|]|e]]; simpl in *; try done.
    + intros [= <-]. now apply Ht.
    + apply generic_normalised.
Qed.

Lemma parse_statement_normalised {D : DateInference} (file : upload) (filename : string)
    (table : list Transaction) :
  parse_statement file filename = Ok table -> exists df, table = _normalise df filename.
Proof.
  unfold parse_statement.
  match goal with |- context [mbind _ ?r] => destruct r as [df_raw|e] end;
    unfold_result; [|done].
  apply parse_frame_normalised.
Qed.

Lemma statement_rows_carry_filename {D : DateInference} (file : upload) (filename : string)
    (table : list Transaction) :
  parse_statement file filename = Ok table ->
  Forall (fun t => source_file t = filename) table.
Proof.
  intros Hparse. apply parse_statement_normalised in Hparse as [df ->].
  apply normalise_source.
Qed.

Lemma parse_each_inv {D : DateInference} (files : list (upload * string))
    (tables : list (list Transaction)) :
  parse_each files = Ok tables ->
  Forall2 (fun f t => parse_statement f.1 f.2 = Ok t) files tables.
Proof.
  revert tables. induction files as [|[fobj fname] files IH]; intros tables; simpl.
  - intros [= <-]. constructor.
  - unfold_result. destruct (parse_statement fobj fname) as [t|e] eqn:Ht; [|done].
    destruct (parse_each files) as [ts|e]; [|done].
    intros [= <-]. constructor; [exact Ht | now apply IH].
Qed.

(** X9. The table of a batch is made of the tables of its files, in upload
    order, and every row carries the name of the file it was read from. *)
Theorem batch_rows_carry_filename {D : DateInference} (files : list (upload * string))
    (table : list Transaction) :
  parse_multiple files = Ok table ->
  exists tables,
    table = concat tables /\
    Forall2 (fun f t => parse_statement f.1 f.2 = Ok t /\
                        Forall (fun row => source_file row = f.2) t) files tables.
Proof.
  unfold parse_multiple. unfold_result.
  destruct (parse_each files) as [tables|e] eqn:He; [|done].
  intros [= <-]. exists tables. split; [reflexivity|].
  apply parse_each_inv in He. eapply Forall2_impl; [exact He|].
  intros f t Hf. split; [exact Hf|]. now apply statement_rows_carry_filename in Hf.
Qed.

Lemma batch_rows_carry_filename_witness :
  exists tables,
    [tesco_row "jan.csv"; tesco_row "feb.csv"] = concat tables /\
    Forall2 (fun f t => @parse_statement no_inference f.1 f.2 = Ok t /\
                        Forall (fun row => source_file row = f.2) t)
            [(csv_file tesco_csv, "jan.csv"); (csv_file tesco_csv, "feb.csv")] tables.
Proof. apply (@batch_rows_carry_filename no_inference). reflexivity. Defined.

(** ** Exceptions of a recognizer *)

Lemma try_parsers_first_raise {D : DateInference} (before after : list parser) (p : parser)
    (df cur : frame) (filename : string) (e : exn) :
  (forall q, In q (before ++ p :: after) -> In q PARSERS) -> cur = df \/ cur = renamed df ->
  Forall (misses df filename) before ->
  (p df filename).2 = Raise e ->
  (try_parsers (before ++ p :: after) cur filename).2 = Raise e.
Proof.
  revert cur. induction before as [|q before IH]; intros cur Hps Hcur Hmiss Hhit; simpl.
  - destruct (recognizer_on_current p df cur filename (Hps p (or_introl eq_refl)) Hcur)
      as [Hres _].
    rewrite Hhit in Hres. destruct (p cur filename) as [cur' r]. simpl in Hres. now subst r.
  - inversion Hmiss as [|? ? Hq Hrest]; subst.
    destruct (recognizer_on_current q df cur filename (Hps q (or_introl eq_refl)) Hcur)
      as [Hres Hfr].
    destruct (q cur filename) as [cur' r]. simpl in Hres, Hfr.
    assert (forall q', In q' (before ++ p :: after) -> In q' PARSERS) as Hps'
      by (intros q' Hq'; apply Hps; now right).
    destruct Hq as [Hq|Hq]; rewrite <- Hres in Hq; subst r; now apply IH.
Qed.

(** X10. An exception raised by a recognizer that claims the frame ends the
    parse: when the recognizers tried before it have all missed, the
    exception is what [parse_statement] raises; neither the recognizers
    after it nor the generic parser are tried. *)
Theorem recognizer_error_ends_parse {D : DateInference} (df : frame) (filename : string)
    (before after : list parser) (p : parser) (e : exn) :
  Frame.empty df = false ->
  PARSERS = before ++ p :: after ->
  Forall (misses df filename) before ->
  (p df filename).2 = Raise e ->
  parse_frame df filename = Raise e.
Proof.
  intros Hne Hsplit Hmiss Hraise. unfold parse_frame. rewrite Hne.
  pose proof (try_parsers_first_raise before after p df df filename e) as H.
  rewrite <- Hsplit in H. specialize (H (fun _ Hq => Hq) (or_introl eq_refl) Hmiss Hraise).
  destruct (try_parsers PARSERS df filename) as [cur r]. simpl in H. now subst r.
Qed.

Lemma recognizer_error_ends_parse_witness :
  @parse_frame no_inference orphan_monzo_frame "monzo.csv" = Raise (KeyError "date").
Proof.
  apply (@recognizer_error_ends_parse no_inference orphan_monzo_frame "monzo.csv"
           [@_parse_amex_detailed no_inference] 
           [@_parse_starling no_inference; @_parse_revolut no_inference;
            @_parse_lloyds no_inference; @_parse_hsbc no_inference;
            @_parse_amex no_inference]
           (@_parse_monzo no_inference)).
  - reflexivity.
  - reflexivity.
  - repeat constructor.
  - reflexivity.
Defined.

(** ** An upload without content *)

(** X11. An upload that is not a workbook and holds nothing but white space
    is not read as an empty table: [pd.read_csv] raises [EmptyDataError],
    and so does [parse_statement]. *)
Theorem blank_upload_raises {D : DateInference} (file : upload) (filename : string) :
  Text.endswith ".xlsx" (Text.lower filename) = false ->
  Text.endswith ".xls" (Text.lower filename) = false ->
  all_space (decoded file) = true ->
  parse_statement file filename = Raise EmptyDataError.
Proof.
  intros Hxlsx Hxls Hblank. unfold parse_statement. rewrite Hxlsx, Hxls. simpl orb. cbv iota.
  unfold Text.strip. rewrite (lstrip_all_space _ Hblank). reflexivity.
Qed.

Lemma blank_upload_raises_witness :
  @parse_statement no_inference (csv_file (" " +:+ Text.LF +:+ Text.LF)) "empty.csv"
  = Raise EmptyDataError.
Proof. apply (@blank_upload_raises no_inference); reflexivity. Defined.

(** ** Spelling of the header *)

Lemma empty_renamed (df : frame) : Frame.empty (renamed df) = Frame.empty df.
Proof.
  unfold Frame.empty, renamed, Frame.set_columns, Frame.lowered. simpl.
  destruct (columns df); reflexivity.
Qed.

Lemma try_parsers_on_current {D : DateInference} (ps : list parser) (df cur : frame)
    (filename : string) :
  (forall p, In p ps -> In p PARSERS) -> cur = df \/ cur = renamed df ->
  (try_parsers ps cur filename).2 = (try_parsers ps (renamed df) filename).2 /\
  ((try_parsers ps cur filename).1 = df \/ (try_parsers ps cur filename).1 = renamed df).
Proof.
  revert cur. induction ps as [|p ps IH]; intros cur Hps Hcur; simpl.
  - split; [reflexivity | exact Hcur].
  - pose proof (Hps p (or_introl eq_refl)) as Hp.
    destruct (recognizer_on_current p df cur filename Hp Hcur) as [Hres Hfr].
    destruct (recognizer_renamed p df filename Hp) as [[Hres' Hfr'] _].
    assert (forall q, In q ps -> In q PARSERS) as Hps' by (intros q Hq; apply Hps; now right).
    destruct (p cur filename) as [cur1 r1], (p (renamed df) filename) as [cur2 r2].
    simpl in *. subst r1 r2 cur2.
    destruct (p df filename).2 as [[[|t ts]|]|e]; simpl; auto.
Qed.

Lemma parse_frame_renamed {D : DateInference} (df : frame) (filename : string) :
  parse_frame (renamed df) filename = parse_frame df filename.
Proof.
  unfold parse_frame. rewrite empty_renamed. destruct (Frame.empty df); [reflexivity|].
  destruct (try_parsers_on_current PARSERS df df filename (fun _ H => H) (or_introl eq_refl))
    as [Hres Hfr].
  destruct (try_parsers_on_current PARSERS df (renamed df) filename (fun _ H => H)
              (or_intror eq_refl)) as [_ Hfr'].
  destruct (try_parsers PARSERS df filename) as [cur1 r1],
           (try_parsers PARSERS (renamed df) filename) as [cur2 r2].
  cbn [fst snd] in Hres, Hfr, Hfr'. subst r1. destruct r2 as [[table|]|e]; try reflexivity.
  assert ((_parse_generic cur1 filename).2 = (_parse_generic df filename).2) as ->
    by (destruct Hfr as [->| ->]; [reflexivity | apply generic_renamed]).
  destruct Hfr' as [->| ->]; [reflexivity | apply generic_renamed].
Qed.

(** X12. Letter case and surrounding white space of the column labels do
    not matter: two frames with the same rows whose labels agree once
    lower-cased and trimmed give the same table, or raise the same
    exception. *)
Theorem header_spelling_is_ignored {D : DateInference} (df df' : frame) (filename : string) :
  rows df = rows df' ->
  Frame.lowered df = Frame.lowered df' ->
  parse_frame df filename = parse_frame df' filename.
Proof.
  intros Hrows Hlabels.
  rewrite <- (parse_frame_renamed df), <- (parse_frame_renamed df').
  unfold renamed, Frame.set_columns. now rewrite Hrows, Hlabels.
Qed.

Lemma header_spelling_is_ignored_witness :
  @parse_frame no_inference tesco_frame "jan.csv"
  = @parse_frame no_inference tesco_frame_padded "jan.csv".
Proof. apply (@header_spelling_is_ignored no_inference); reflexivity. Defined.

(** ** Lines before the table *)

Lemma split_on_commas (s : string) : length (Text.split_on "," s) = S (commas s).
Proof.
  induction s as [|c s IH]; [reflexivity|].
  cbn [Text.split_on commas]. destruct (Ascii.eqb c ","); simpl.
  - now rewrite IH.
  - destruct (Text.split_on "," s); simpl in *; congruence.
Qed.

Lemma contains_comma (s : string) : Text.contains "," s = negb (Nat.eqb (commas s) 0).
Proof.
  induction s as [|c s IH]; [reflexivity|].
  cbn [Text.contains commas String.prefix]. rewrite IH.
  destruct (ascii_dec "," c) as [<-|Hne]; [destruct s; reflexivity|].
  destruct (Ascii.eqb_spec c ","); [congruence|]. reflexivity.
Qed.

Lemma table_line_commas (line : string) :
  Text.contains "," line && Nat.leb 3 (length (Text.split_on "," line))
  = Nat.leb 2 (commas line).
Proof.
  rewrite contains_comma, split_on_commas.
  destruct (commas line) as [|[|n]]; reflexivity.
Qed.

Lemma first_table_line_step (i : nat) (line : string) (lines : list string) :
  first_table_line i (line :: lines)
  = if Nat.leb 2 (commas line) then i else first_table_line (S i) lines.
Proof. rewrite <- table_line_commas. reflexivity. Qed.

Lemma first_table_line_from (i : nat) (pre post : list string) (line : string) :
  Forall (fun l => commas l < 2) pre -> 2 <= commas line ->
  first_table_line i (pre ++ line :: post) = i + length pre.
Proof.
  intros Hpre Hline. revert i. induction Hpre as [|l pre Hl _ IH]; intros i.
  - change ([] ++ line :: post) with (line :: post). rewrite first_table_line_step.
    destruct (Nat.leb_spec 2 (commas line)); simpl; lia.
  - change ((l :: pre) ++ line :: post) with (l :: (pre ++ line :: post)).
    rewrite first_table_line_step.
    destruct (Nat.leb_spec 2 (commas l)); [lia|]. rewrite IH. simpl. lia.
Qed.

Lemma first_table_line_none (i : nat) (lines : list string) :
  Forall (fun l => commas l < 2) lines -> first_table_line i lines = 0.
Proof.
  intros H. revert i. induction H as [|l lines Hl _ IH]; intros i; [reflexivity|].
  rewrite first_table_line_step.
  destruct (Nat.leb_spec 2 (commas l)); [lia|]. apply IH.
Qed.

(** X13. The scan for the start of the table stops at the first line with
    at least two commas, and the lines before it are dropped; when no line
    has two commas, nothing is dropped. *)
Theorem preamble_is_dropped (lines : list string) :
  (forall pre line post,
     lines = pre ++ line :: post ->
     Forall (fun l => commas l < 2) pre -> 2 <= commas line ->
     drop (first_table_line 0 lines) lines = line :: post) /\
  (Forall (fun l => commas l < 2) lines ->
   drop (first_table_line 0 lines) lines = lines).
Proof.
  split.
  - intros pre line post -> Hpre Hline.
    rewrite (first_table_line_from 0 pre post line Hpre Hline). simpl.
    now rewrite drop_app_length.
  - intros Hnone. now rewrite (first_table_line_none 0 lines Hnone).
Qed.

Lemma preamble_is_dropped_witness :
  drop (first_table_line 0 ["Account: 12345678"; "Exported, 1 Feb"; "Date,Description,Amount";
                            "28/01/2026,TESCO STORES,45.30"])
       ["Account: 12345678"; "Exported, 1 Feb"; "Date,Description,Amount";
        "28/01/2026,TESCO STORES,45.30"]
  = ["Date,Description,Amount"; "28/01/2026,TESCO STORES,45.30"].
Proof.
  apply (proj1 (preamble_is_dropped _) ["Account: 12345678"; "Exported, 1 Feb"]
           "Date,Description,Amount" ["28/01/2026,TESCO STORES,45.30"]).
  - reflexivity.
  - repeat constructor.
  - vm_compute. lia.
Defined.

(** ** The generic parser *)









(** ** The sign of money out *)

Lemma zip3_amount (ds : list (option calendar_date)) (xs ys : list cell) (r : partial_row) :
  In r (Rows.zip3 ds xs ys) -> In (amount_ r) ys.
Proof.
  revert xs ys. induction ds as [|d ds IH]; intros [|x xs] [|y ys]; simpl; try done.
  intros [<-|Hin]; [now left | right; eauto].
Qed.

Lemma to_numeric_of_numeric (o : option decimal) :
  Frame.to_numeric (Frame.of_numeric o) = o.
Proof. destruct o; reflexivity. Qed.

Lemma converted_cell (conv : cell -> cell) (cells : list cell) (x : cell) (a : decimal) :
  numeric_conversion conv -> In x (map conv cells) -> Frame.to_numeric x = Some a ->
  exists c, In c cells /\ conv c = CNum a.
Proof.
  intros Hconv Hin Ha. apply in_map_iff in Hin as (c & <- & Hc).
  exists c. split; [exact Hc|]. destruct (Hconv c) as [o Ho]. rewrite Ho in *.
  rewrite to_numeric_of_numeric in Ha. now subst.
Qed.

Lemma numeric_is_conversion : numeric_conversion Rows.numeric.
Proof. intros c. unfold Rows.numeric. eauto. Qed.

Lemma numeric_no_commas_is_conversion : numeric_conversion Rows.numeric_no_commas.
Proof. intros c. unfold Rows.numeric_no_commas. eauto. Qed.

Lemma negative_pipeline (conv : cell -> cell) (dates : list (option calendar_date))
    (descs cells : list cell) (source : string) :
  numeric_conversion conv ->
  Forall (fun t => exists c a, In c cells /\ conv c = CNum a /\ (unscaled a < 0)%Z /\
                               amount t = Num.abs a)
    (_normalise (Rows.abs_amount (Rows.negative (Rows.zip3 dates descs (map conv cells))))
       source).
Proof.
  intros Hconv. apply Forall_forall. intros t Ht. unfold _normalise in Ht.
  apply list_elem_of_omap in Ht as (r' & Hr' & Ht).
  apply normalise_row_spec in Ht as (d & a' & _ & Ha' & _ & ->).
  apply list_elem_of_In in Hr'. unfold Rows.abs_amount in Hr'.
  apply in_map_iff in Hr' as (r & <- & Hr). simpl in Ha'.
  rewrite to_numeric_of_numeric in Ha'.
  unfold Rows.negative in Hr. apply list_elem_of_In, list_elem_of_filter in Hr as [Hneg Hr].
  unfold Rows.amount_is in Hneg.
  destruct (Frame.to_numeric (amount_ r)) as [a|] eqn:Ha; [|discriminate].
  simpl in Ha'. injection Ha' as <-.
  apply list_elem_of_In, zip3_amount in Hr.
  destruct (converted_cell conv cells _ a Hconv Hr Ha) as (c & Hc & Hcv).
  exists c, a. unfold Num.lt0 in Hneg. apply Z.ltb_lt in Hneg.
  repeat split; try done. unfold Num.abs; simpl. f_equal. lia.
Qed.

Lemma positive_pipeline (conv : cell -> cell) (dates : list (option calendar_date))
    (descs cells : list cell) (source : string) :
  numeric_conversion conv ->
  Forall (fun t => exists c, In c cells /\ conv c = CNum (amount t) /\
                             (0 < unscaled (amount t))%Z)
    (_normalise (Rows.positive (Rows.zip3 dates descs (map conv cells))) source).
Proof.
  intros Hconv. apply Forall_forall. intros t Ht. unfold _normalise in Ht.
  apply list_elem_of_omap in Ht as (r & Hr & Ht).
  apply normalise_row_spec in Ht as (d & a & _ & Ha & _ & ->).
  unfold Rows.positive in Hr. apply list_elem_of_filter in Hr as [Hpos Hr].
  unfold Rows.amount_is in Hpos. rewrite Ha in Hpos.
  unfold Num.gt0 in Hpos. apply Z.ltb_lt in Hpos.
  apply list_elem_of_In, zip3_amount in Hr.
  destruct (converted_cell conv cells _ a Hconv Hr Ha) as (c & Hc & Hcv).
  exists c. simpl. destruct a as [u k]. unfold Num.abs; simpl in *.
  rewrite Z.abs_eq by lia. auto.
Qed.

Lemma filter_head {A : Type} (P : A -> Prop) `{!forall x, Decision (P x)} (l l' : list A)
    (x : A) :
  filter P l = x :: l' -> P x.
Proof.
  intros Hf. assert (x ∈ filter P l) as Hx by (rewrite Hf; left).
  now apply list_elem_of_filter in Hx as [Hx _].
Qed.

(** X15. Monzo, Starling and Revolut count money out as negative: every
    amount in the table one of them returns is the negation of a negative
    number read from a cell of the amount column, so that no positive or
    zero entry of that column comes through. *)
Theorem negative_amounts_are_spend {D : DateInference} (p : parser) (conv : cell -> cell)
    (df_raw : frame) (source : string) (table : list Transaction) :
  In (p, conv) [(_parse_monzo, Rows.numeric); (_parse_starling, Rows.numeric_no_commas);
                (_parse_revolut, Rows.numeric_no_commas)] ->
  (p df_raw source).2 = Ok (Some table) ->
  exists name cells,
    Text.contains "amount" name = true /\
    Frame.col name (renamed df_raw) = Ok cells /\
    Forall (fun t => exists c a, In c cells /\ conv c = CNum a /\ (unscaled a < 0)%Z /\
                                 amount t = Num.abs a) table.
Proof.
  intros Hp. simpl in Hp. destruct Hp as [[= <- <-]|[[= <- <-]|[[= <- <-]|[]]]].
  - unfold _parse_monzo. claim_first. fold (renamed df_raw). unfold_result.
    repeat (case_match; try done; simplify_eq; cbn beta iota; try done);
    intros [= <-]; exists "amount"; eexists; (split; [reflexivity|]); (split; [eassumption|]);
    apply negative_pipeline, numeric_is_conversion.
  - unfold _parse_starling. claim_first. fold (renamed df_raw). unfold_result.
    repeat (case_match; try done; simplify_eq; cbn beta iota; try done);
    intros [= <-]; do 2 eexists;
    (split; [|split; [eassumption | apply negative_pipeline, numeric_no_commas_is_conversion]]);
    try reflexivity;
    match goal with
    | H : filter _ _ = ?c :: _ |- Text.contains "amount" ?c = true =>
        apply filter_head in H; try exact H; now apply andb_true_iff in H as [H _]
    end.
  - unfold _parse_revolut. claim_first. fold (renamed df_raw). unfold_result.
    repeat (case_match; try done; simplify_eq; cbn beta iota; try done);
    intros [= <-]; exists "amount"; eexists; (split; [reflexivity|]); (split; [eassumption|]);
    apply negative_pipeline, numeric_no_commas_is_conversion.
Qed.

Lemma negative_amounts_are_spend_witness :
  exists name cells,
    Text.contains "amount" name = true /\
    Frame.col name (renamed monzo_frame) = Ok cells /\
    Forall (fun t => exists c a, In c cells /\ Rows.numeric c = CNum a /\ (unscaled a < 0)%Z /\
                                 amount t = Num.abs a) [coffee_row "monzo.csv"].
Proof.
  apply (@negative_amounts_are_spend no_inference (@_parse_monzo no_inference) Rows.numeric
           monzo_frame "monzo.csv"); [left; reflexivity | reflexivity].
Defined.

Lemma mask_rows_in (mask : list bool) (rs : list (list cell)) (r : list cell) :
  In r (Rows.mask_rows mask rs) -> In r rs.
Proof.
  revert rs. induction mask as [|b mask IH]; intros [|r' rs]; simpl; try done.
  destruct b; simpl; [intros [<-|Hin]|intros Hin]; eauto.
Qed.

Lemma col_of_masked (name : string) (cols : list string) (mask : list bool) (df : frame)
    (cells : list cell) :
  Frame.col name {| columns := cols; rows := Rows.mask_rows mask (rows df) |} = Ok cells ->
  exists all, Frame.col name (Frame.set_columns cols df) = Ok all /\
              forall c, In c cells -> In c all.
Proof.
  unfold Frame.col. simpl. destruct (Frame.index_of name cols) as [i|]; [|discriminate].
  intros [= <-]. eexists. split; [reflexivity|]. intros c Hc.
  apply in_map_iff in Hc as (r & <- & Hr).
  apply in_map_iff. exists r. split; [reflexivity|]. eapply mask_rows_in, Hr.
Qed.

(** X16. Lloyds/Halifax, HSBC and both Amex layouts count money out as
    positive: every amount in the table one of them returns is a positive
    number read, thousands separators removed, from a cell of the debit
    (or amount) column, so that no negative or zero entry comes through. *)
Theorem positive_amounts_are_spend {D : DateInference} (p : parser) (name : string)
    (df_raw : frame) (source : string) (table : list Transaction) :
  In (p, name) [(_parse_lloyds, "debit amount"); (_parse_hsbc, "debit");
                (_parse_amex, "amount"); (_parse_amex_detailed, "billing amount")] ->
  (p df_raw source).2 = Ok (Some table) ->
  exists cells,
    Frame.col name (renamed df_raw) = Ok cells /\
    Forall (fun t => exists c, In c cells /\ Rows.numeric_no_commas c = CNum (amount t) /\
                               (0 < unscaled (amount t))%Z) table.
Proof.
  intros Hp. simpl in Hp. destruct Hp as [[= <- <-]|[[= <- <-]|[[= <- <-]|[[= <- <-]|[]]]]].
  - unfold _parse_lloyds. claim_first. fold (renamed df_raw). unfold_result.
    repeat (case_match; try done; simplify_eq; cbn beta iota; try done);
    intros [= <-]; eexists; (split; [first [eassumption | reflexivity]|]);
    apply positive_pipeline, numeric_no_commas_is_conversion.
  - unfold _parse_hsbc. claim_first. fold (renamed df_raw). unfold_result.
    repeat (case_match; try done; simplify_eq; cbn beta iota; try done);
    intros [= <-]; eexists; (split; [first [eassumption | reflexivity]|]);
    apply positive_pipeline, numeric_no_commas_is_conversion.
  - unfold _parse_amex. claim_first. fold (renamed df_raw). unfold_result.
    repeat (case_match; try done; simplify_eq; cbn beta iota; try done);
    intros [= <-]; eexists; (split; [first [eassumption | reflexivity]|]);
    apply positive_pipeline, numeric_no_commas_is_conversion.
  - unfold _parse_amex_detailed. claim_first. fold (renamed df_raw). unfold_result.
    repeat (case_match; try done; simplify_eq; cbn beta iota; try done);
    intros [= <-];
    match goal with
    | H : Frame.col "billing amount" _ = Ok ?cells, Hm : Rows.mask_rows _ _ = _ |- _ =>
        rewrite <- Hm in H; apply col_of_masked in H as (all & Hall & Hsub); exists all; split; [exact Hall|];
        eapply Forall_impl;
          [apply (positive_pipeline Rows.numeric_no_commas _ _ cells),
                 numeric_no_commas_is_conversion|];
        intros t (c & Hc & Ht); exists c; split; [now apply Hsub | exact Ht]
    end.
Qed.

Lemma positive_amounts_are_spend_witness :
  exists cells,
    Frame.col "amount" (renamed tesco_frame) = Ok cells /\
    Forall (fun t => exists c, In c cells /\ Rows.numeric_no_commas c = CNum (amount t) /\
                               (0 < unscaled (amount t))%Z) [tesco_row "jan.csv"].
Proof.
  apply (@positive_amounts_are_spend no_inference (@_parse_amex no_inference) "amount"
           tesco_frame "jan.csv"); [right; right; left; reflexivity | reflexivity].
Defined.

(** ** Batches *)

Lemma parse_each_app {D : DateInference} (a b : list (upload * string)) :
  parse_each (a ++ b) = (xs ← parse_each a; ys ← parse_each b; Ok (xs ++ ys)).
Proof.
  induction a as [|[fobj fname] a IH].
  - simpl. unfold_result. now destruct (parse_each b).
  - change (parse_each (((fobj, fname) :: a) ++ b))
      with (t ← parse_statement fobj fname; ts ← parse_each (a ++ b); Ok (t :: ts)).
    rewrite IH. simpl. unfold_result.
    destruct (parse_statement fobj fname); [|reflexivity].
    destruct (parse_each a); [|reflexivity].
    now destruct (parse_each b).
Qed.

(** X17. Parsing a batch made of two batches is parsing the first, then the
    second, and putting the second table under the first; an exception of
    the first batch is raised before the second is looked at. *)
Theorem parse_multiple_app {D : DateInference} (a b : list (upload * string)) :
  parse_multiple (a ++ b)
  = (ta ← parse_multiple a; tb ← parse_multiple b; Ok (ta ++ tb)).
Proof.
  unfold parse_multiple. rewrite parse_each_app. unfold_result.
  destruct (parse_each a) as [xs|e]; [|reflexivity].
  destruct (parse_each b) as [ys|e]; [|reflexivity].
  now rewrite concat_app.
Qed.

(** ** Colours *)

Lemma palette_distinct : NoDup PALETTE.
Proof. apply NoDup_ListNoDup. repeat constructor; vm_compute; intuition discriminate. Qed.

(** X18. [cat_colour] never runs off the palette, whatever the index, a
    negative one included, and two indices get the same colour exactly when
    they differ by a multiple of twelve. *)
Theorem cat_colour_wraps (i j : Z) :
  (exists colour, cat_colour i = Ok colour /\ In colour PALETTE) /\
  (cat_colour i = cat_colour j <-> (i mod 12 = j mod 12)%Z).
Proof.
  assert (forall k : Z, Z.to_nat (k mod 12) < length PALETTE) as Hlt
    by (intros k; pose proof (Z.mod_pos_bound k 12); simpl; lia).
  unfold cat_colour. change (Z.of_nat (length PALETTE)) with 12%Z.
  destruct (nth_error PALETTE (Z.to_nat (i mod 12))) as [ci|] eqn:Hi;
    [|apply nth_error_None in Hi; specialize (Hlt i); lia].
  destruct (nth_error PALETTE (Z.to_nat (j mod 12))) as [cj|] eqn:Hj;
    [|apply nth_error_None in Hj; specialize (Hlt j); lia].
  split.
  - exists ci. split; [reflexivity|]. eapply nth_error_In, Hi.
  - split.
    + intros [= ->].
      assert (Z.to_nat (i mod 12) = Z.to_nat (j mod 12)) as Heq.
      { apply (proj1 (List.NoDup_nth_error PALETTE)); [|apply Hlt|congruence].
        apply NoDup_ListNoDup, palette_distinct. }
      pose proof (Z.mod_pos_bound i 12). pose proof (Z.mod_pos_bound j 12). lia.
    + intros Heq. rewrite Heq in Hi. congruence.
Qed.

(** ** Loading the configuration *)

Lemma load_categories_ok (items : list (string * category_info))
    (filled : list (string * list string) * list (string * string)) :
  CategoryConfig.load_categories items = Ok filled ->
  Forall2 (fun item rule => rule.1 = item.1 /\
                            keywords_ item.2 = Some (default [] (keywords_ item.2)) /\
                            rule.2 = map Text.lower (default [] (keywords_ item.2)))
          items filled.1 /\
  filled.2 = map (fun item => (item.1, default "" (icon_ item.2))) items.
Proof.
  revert filled. induction items as [|[name info] items IH]; intros filled; simpl.
  - intros [= <-]. split; [constructor | reflexivity].
  - unfold_result. destruct (keywords_ info) as [kws|] eqn:Hk; simpl; [|discriminate].
    destruct (CategoryConfig.load_categories items) as [rest|e]; [|discriminate].
    intros [= <-]. destruct (IH rest eq_refl) as [Hrules Hicons]. simpl. split.
    + constructor; [|exact Hrules]. simpl. now rewrite Hk.
    + now rewrite Hicons.
Qed.

Lemma load_categories_raise (items : list (string * category_info)) (e : exn) :
  CategoryConfig.load_categories items = Raise e ->
  e = KeyError "keywords" /\ exists name info, In (name, info) items /\ keywords_ info = None.
Proof.
  induction items as [|[name info] items IH]; simpl; [discriminate|].
  unfold_result. destruct (keywords_ info) as [kws|] eqn:Hk; simpl.
  - destruct (CategoryConfig.load_categories items) as [rest|e']; [discriminate|].
    intros [= ->]. destruct (IH eq_refl) as (-> & n & i & Hin & Hnone).
    split; [reflexivity|]. exists n, i. auto.
  - intros [= <-]. split; [reflexivity|]. exists name, info. auto.
Qed.

Lemma load_categories_total (items : list (string * category_info)) :
  Forall (fun item => is_Some (keywords_ item.2)) items ->
  exists filled, CategoryConfig.load_categories items = Ok filled.
Proof.
  induction 1 as [|[name info] items [kws Hk] _ [rest IH]]; simpl; [eauto|].
  simpl in Hk. rewrite Hk, IH. simpl. eauto.
Qed.

(** X19. [load] needs the key "categories" and, in every category, the key
    "keywords": it raises [KeyError] for the first that is missing and
    succeeds otherwise, with the categories in document order; "icon",
    "uncategorized" and "itemised_threshold_gbp" may be left out. *)
Theorem load_requires_categories_and_keywords (data : config_document) :
  match CategoryConfig.load data with
  | Ok cfg =>
      exists items, categories_ data = Some items /\
                    Forall (fun item => is_Some (keywords_ item.2)) items /\
                    map fst (rules cfg) = map fst items /\
                    map fst (icons cfg) = map fst items
  | Raise e =>
      (categories_ data = None /\ e = KeyError "categories") \/
      (exists items name info,
         categories_ data = Some items /\ In (name, info) items /\
         keywords_ info = None /\ e = KeyError "keywords")
  end.
Proof.
  unfold CategoryConfig.load. unfold_result.
  destruct (categories_ data) as [items|]; simpl; [|now left].
  destruct (CategoryConfig.load_categories items) as [filled|e] eqn:Hload.
  - apply load_categories_ok in Hload as [Hrules Hicons].
    exists items. split; [reflexivity|]. simpl. repeat split.
    + clear Hicons. induction Hrules as [|item rule items rs (_ & Hk & _) _ IH]; constructor; eauto.
    + clear Hicons. induction Hrules as [|item rule items rs (Hn & _) _ IH]; simpl; congruence.
    + rewrite Hicons, map_map. reflexivity.
  - apply load_categories_raise in Hload as (-> & name & info & Hin & Hnone).
    right. exists items, name, info. auto.
Qed.

Lemma hits_lowered (info : category_info) (description : string) :
  hits (map Text.lower (default [] (keywords_ info))) description <-> mentions description info.
Proof.
  unfold hits, mentions. split.
  - intros (k & Hin & Hk). apply in_map_iff in Hin as (kw & <- & Hin). eauto.
  - intros (kw & Hin & Hk). exists (Text.lower kw). split; [now apply in_map|exact Hk].
Qed.

Lemma loaded_rules_miss (description : string) (items : list (string * category_info))
    (rs : list (string * list string)) :
  Forall2 (fun item rule => rule.1 = item.1 /\
                            keywords_ item.2 = Some (default [] (keywords_ item.2)) /\
                            rule.2 = map Text.lower (default [] (keywords_ item.2)))
          items rs ->
  Forall (fun item => ~ mentions description item.2) items ->
  Forall (fun r => ~ hits r.2 description) rs.
Proof.
  induction 1 as [|item rule items rs (_ & _ & Hk) _ IH]; intros Hno; [constructor|].
  inversion Hno as [|? ? Hitem Hrest]; subst. constructor; [|now apply IH].
  rewrite Hk. intros Hh. now apply hits_lowered in Hh.
Qed.

(** X20. Keywords are lower-cased when the configuration is loaded, and the
    description when it is categorised: with a loaded configuration and no
    override, a description gets the first category of the document one of
    whose keywords it contains, letter case apart on both sides. *)
Theorem loaded_keywords_match_any_case (data : config_document) (cfg : CategoryConfig)
    (store : OverrideStore) (description : string)
    (pre post : list (string * category_info)) (category : string) (info : category_info) :
  CategoryConfig.load data = Ok cfg ->
  categories_ data = Some (pre ++ (category, info) :: post) ->
  Forall (fun item => ~ mentions description item.2) pre ->
  mentions description info ->
  OverrideStore.get store description = None ->
  Categoriser.categorise {| config := cfg; overrides := store |} description = category.
Proof.
  intros Hload Hitems Hpre Hhit Hget.
  unfold CategoryConfig.load in Hload. rewrite Hitems in Hload. unfold_result. simpl in Hload.
  destruct (CategoryConfig.load_categories _) as [filled|e] eqn:Hfill; [|discriminate].
  injection Hload as <-. apply load_categories_ok in Hfill as [Hrules _].
  apply Forall2_app_inv_l in Hrules as (rs1 & rs2 & Hrs1 & Hrs2 & Hsplit).
  inversion Hrs2 as [|? [c kws] ? rs3 (Hc & _ & Hkws) _]; subst. simpl in Hc, Hkws. subst c kws.
  unfold Categoriser.categorise. simpl. rewrite Hget, Hsplit.
  rewrite (scan_first_hit rs1 rs3 category); [reflexivity | | now apply hits_lowered].
  now apply (loaded_rules_miss description pre).
Qed.

Lemma loaded_keywords_match_any_case_witness :
  exists cfg,
    CategoryConfig.load shouting_document = Ok cfg /\
    Categoriser.categorise {| config := cfg; overrides := {| _data := ∅ |} |}
      "tesco stores 2041" = "Groceries".
Proof.
  eexists. split; [reflexivity|].
  apply (loaded_keywords_match_any_case shouting_document _ _ "tesco stores 2041"
           [("Transport", {| keywords_ := Some ["UBER"; "TfL"]; icon_ := Some "T" |})] []
           "Groceries" {| keywords_ := Some ["Tesco"]; icon_ := None |}).
  - reflexivity.
  - reflexivity.
  - constructor; [|constructor]. intros (kw & [<-|[<-|[]]] & Hk); discriminate.
  - exists "Tesco". split; [now left | reflexivity].
  - reflexivity.
Defined.

Lemma assoc_mapped (name : string) (info : category_info)
    (items : list (string * category_info)) :
  List.NoDup (map fst items) -> In (name, info) items ->
  Categoriser.assoc name (map (fun item => (item.1, default "" (icon_ item.2))) items)
  = Some (default "" (icon_ info)).
Proof.
  induction items as [|[n i] items IH]; simpl; [done|].
  intros Hnd Hin. inversion Hnd as [|? ? Hfresh Hnd']; subst.
  destruct Hin as [[= -> ->]|Hin].
  - now rewrite String.eqb_refl.
  - destruct (String.eqb_spec name n) as [->|Hne]; [|now apply IH].
    exfalso. apply Hfresh. apply in_map_iff. now exists (n, info).
Qed.

(** X21. With a loaded configuration, the icon of a category of the
    document is the one the document gives, or the empty text when it gives
    none; the uncategorised label has the uncategorised icon, even if a
    category bears the same name. *)
Theorem loaded_icons (data : config_document) (cfg : CategoryConfig) (store : OverrideStore)
    (items : list (string * category_info)) :
  CategoryConfig.load data = Ok cfg ->
  categories_ data = Some items ->
  List.NoDup (map fst items) ->
  let self := {| config := cfg; overrides := store |} in
  Categoriser.get_icon self (uncategorised_label cfg) = uncategorised_icon cfg /\
  forall name info,
    In (name, info) items -> name <> uncategorised_label cfg ->
    Categoriser.get_icon self name = default "" (icon_ info).
Proof.
  intros Hload Hitems Hnd self. unfold Categoriser.get_icon. simpl. split.
  - now rewrite String.eqb_refl.
  - intros name info Hin Hne.
    destruct (String.eqb_spec name (uncategorised_label cfg)) as [|_]; [done|].
    unfold CategoryConfig.load in Hload. rewrite Hitems in Hload. unfold_result.
    simpl in Hload.
    destruct (CategoryConfig.load_categories items) as [filled|e] eqn:Hfill; [|discriminate].
    injection Hload as <-. apply load_categories_ok in Hfill as [_ Hicons]. simpl.
    now rewrite Hicons, (assoc_mapped name info items Hnd Hin).
Qed.

Lemma loaded_icons_witness :
  exists cfg,
    CategoryConfig.load shouting_document = Ok cfg /\
    Categoriser.get_icon {| config := cfg; overrides := {| _data := ∅ |} |} "Groceries"
    = EmptyString.
Proof.
  eexists. split; [reflexivity|].
  refine (proj2 (loaded_icons shouting_document _ {| _data := ∅ |} _ eq_refl eq_refl _)
            "Groceries" {| keywords_ := Some ["Tesco"]; icon_ := None |} _ _).
  - repeat constructor; simpl; intuition discriminate.
  - right. now left.
  - discriminate.
Defined.

(** ** A backing file that does not parse *)

(** X22. A backing file whose text the JSON reader rejects is taken for an
    empty store without a word, and the next [set] overwrites it: the file
    then holds the new override alone, and what it held before is gone. *)
Theorem corrupt_file_is_overwritten {J : Json} (d : disk) (f : file) (text desc X : string) :
  overrides_json d = Some f -> readable f = true -> body f = Text text ->
  json_loads text = Raise JSONDecodeError ->
  writable d = true ->
  exists self,
    OverrideStore.init d = Ok self /\
    OverrideStore.all_overrides self = ∅ /\
    let out := OverrideStore.set self desc X d in
    out.2 = Ok tt /\
    overrides_json out.1.2
    = Some {| readable := true;
              body := Text (json_dumps {[OverrideStore.key desc := X]}) |}.
Proof.
  intros Hf Hr Hb Hloads Hw. exists {| _data := ∅ |}.
  destruct (load_degrades d) as (_ & _ & Hload).
  unfold OverrideStore.init. rewrite (Hload f text Hf Hr Hb Hloads).
  split; [reflexivity|]. split; [reflexivity|].
  unfold OverrideStore.set, OverrideStore._save, Path.write_text. rewrite Hw, Hf, Hr. simpl.
  split; [reflexivity|]. now rewrite insert_empty.
Qed.

Lemma corrupt_file_is_overwritten_witness :
  exists self,
    @OverrideStore.init PyJson.codec corrupt_disk = Ok self /\
    OverrideStore.all_overrides self = ∅ /\
    let out := @OverrideStore.set PyJson.codec self "Uber Trip" "Business" corrupt_disk in
    out.2 = Ok tt /\
    overrides_json out.1.2
    = Some {| readable := true;
              body := Text (PyJson.dumps {[OverrideStore.key "Uber Trip" := "Business"]}) |}.
Proof.
  apply (@corrupt_file_is_overwritten PyJson.codec corrupt_disk
           {| readable := true; body := Text "{not json" |} "{not json");
    reflexivity.
Defined.
